(** * testcontainers: the single-container provisioning pipeline

    A shallow embedding of package [testcontainers] (definition builder,
    image source, creator / starter decorator chains, [Run] and [Info]),
    followed by the properties of the pipeline.

    Modelling conventions.
    - A Go interface value is an inductive type with one constructor per
      dynamic type that can sit behind it, plus a constructor for the nil
      interface value.  Calling a method on the nil value panics.
    - A Go pointer that the code may receive as nil is an [option].
    - [error] is [option] of an error value; [None] is the nil error.
    - The container runtime, the readiness strategies and implementations
      of the interfaces that live outside the package are external
      collaborators: their answers come from a [Runtime] record of oracles
      over an abstract world state.
    - A [slog.Logger] is a handler, nil in the zero Logger.  A method of a
      Logger with a handler returns and leaves a log record; a method of
      the zero Logger panics on the nil handler.
    - Effects are a state-and-trace monad with panics.  The trace records
      every call that crosses an interface (ghost events emitted by the
      dispatch functions) and every call to an external collaborator, so
      that "is invoked", "exactly once" and "never" are statements about
      the trace. *)

From Stdlib Require Import String List Arith Lia Bool.
Import ListNotations.
Open Scope string_scope.
Open Scope list_scope.

(** ** External types *)

(** [nat.Port] is a string type. *)
Definition nat_Port := string.

(** [v1.Platform] of the OCI image specification. *)
Record v1_Platform := {
  Architecture : string;
  OS : string;
  OSVersion : string;
  OSFeatures : list string;
  Variant : string
}.

(** [context.Context]: the background context and contexts derived by the
    caller. *)
Inductive context_Context :=
| context_Background
| context_Derived (key : nat).

(** An error value carries its message; the nil error is [None]. *)
Definition error := option string.

(** [*DockerClient]: an opaque handle. *)
Record DockerClient := { client_handle : nat }.

(** [slog.Handler] is an interface implemented outside the package;
    [slog.Logger] is a struct around a handler, nil in the zero Logger. *)
Inductive slog_Handler := Handler (sink : nat).
Record slog_Logger := { Logger_handler : option slog_Handler }.

Definition zero_Logger : slog_Logger := {| Logger_handler := None |}.

Inductive slog_Level := LevelInfo | LevelError.

(** [wait.Strategy] is an interface implemented outside the package. *)
Inductive wait_Strategy :=
| NilStrategy
| Strategy (name : string).

(** The arguments of the runtime's create and start calls. *)
Record container_Config := {
  Config_Image : string;
  Config_ExposedPorts : list nat_Port
}.
Record container_HostConfig := { HostConfig_AutoRemove : bool }.
Record network_NetworkingConfig := { NetworkingConfig_Networks : list string }.
Record container_CreateResponse := {
  CreateResponse_ID : string;
  CreateResponse_Warnings : list string
}.
Record container_StartOptions := {
  CheckpointID : string;
  CheckpointDir : string
}.

(** ** The package's data model *)

Record FromImageSource := {
  image : string;
  platform : option v1_Platform
}.

(** [ContainerImageSource]: nil, a [*FromImageSource], or an implementation
    from outside the package. *)
Inductive ContainerImageSource :=
| NilImageSource
| ImageSource_FromImage (f : FromImageSource)
| ImageSource_Foreign (name : string).

(** [ContainerCreator]: nil, the two implementations of the package, or an
    implementation from outside (a test double, say). *)
Inductive ContainerCreator :=
| NilCreator
| ContainerImageCreator (client : DockerClient)
| LoggingContainerCreator (inner : ContainerCreator) (logger : slog_Logger)
| ForeignCreator (name : string).

Inductive ContainerStarter :=
| NilStarter
| DockerContainerStarter (client : DockerClient)
| AwaitingContainerStarter (inner : ContainerStarter) (wait : wait_Strategy)
| ForeignStarter (name : string).

(** No implementation of [ContainerTerminator] exists in the package. *)
Inductive ContainerTerminator :=
| NilTerminator
| ForeignTerminator (name : string).

Record GenericContainerDefinition := {
  imageSource : ContainerImageSource;
  exposedPorts : list nat_Port;
  creator : ContainerCreator;
  starter : ContainerStarter;
  terminator : ContainerTerminator
}.

Record CreatedContainer := {
  ID : string;
  definition : GenericContainerDefinition
}.

(** [StartedContainer] embeds a [CreatedContainer]. *)
Record StartedContainer := {
  StartedContainer_CreatedContainer : CreatedContainer
}.

Definition StartedContainer_ID (s : StartedContainer) : string :=
  ID (StartedContainer_CreatedContainer s).

(** The adapter handed to a readiness strategy. *)
Record Adapted := { Adapted_container : StartedContainer }.

Record ExecutionConfiguration := { ctx : context_Context }.

Record ContainerInfo := mkContainerInfo { }.

Record Testcontainers := {
  tc_client : DockerClient;
  tc_logger : slog_Logger
}.

(** Zero values. *)
Definition zero_GenericContainerDefinition : GenericContainerDefinition :=
  {| imageSource := NilImageSource; exposedPorts := [];
     creator := NilCreator; starter := NilStarter;
     terminator := NilTerminator |}.

Definition zero_CreatedContainer : CreatedContainer :=
  {| ID := EmptyString; definition := zero_GenericContainerDefinition |}.

Definition zero_StartedContainer : StartedContainer :=
  {| StartedContainer_CreatedContainer := zero_CreatedContainer |}.

Definition zero_StartOptions : container_StartOptions :=
  {| CheckpointID := EmptyString; CheckpointDir := EmptyString |}.

(** Option function types. *)
Definition GenericContainerOption :=
  GenericContainerDefinition -> GenericContainerDefinition.
Definition FromImageSourceOption := FromImageSource -> FromImageSource.
Definition ExecutionOption :=
  ExecutionConfiguration -> ExecutionConfiguration.

(** ** Builders (pure) *)

(** [for _, port := range ports { c.exposedPorts = append(c.exposedPorts, port) }] *)
Definition WithExposedPorts (ports : list nat_Port) : GenericContainerOption :=
  fun c =>
    fold_left
      (fun c port =>
         {| imageSource := imageSource c;
            exposedPorts := exposedPorts c ++ [port];
            creator := creator c;
            starter := starter c;
            terminator := terminator c |})
      ports c.

Definition WaitingFor (wait : wait_Strategy) : GenericContainerOption :=
  fun c =>
    {| imageSource := imageSource c;
       exposedPorts := exposedPorts c;
       creator := creator c;
       starter := AwaitingContainerStarter (starter c) wait;
       terminator := terminator c |}.

Definition FromImageSource_Prepare (f : FromImageSource)
    (_ : context_Context) : string * error :=
  (image f, None).

(** The argument is not read. *)
Definition WithImagePlatform (_ : string) : FromImageSourceOption :=
  fun s =>
    {| image := image s;
       platform := Some {| Architecture := "amd64"; OS := "linux";
                           OSVersion := EmptyString; OSFeatures := [];
                           Variant := EmptyString |} |}.

Definition FromImage (img : string) (opts : list FromImageSourceOption)
    : FromImageSource :=
  fold_left (fun s opt => opt s) opts {| image := img; platform := None |}.

Definition WithContext (c : context_Context) : ExecutionOption :=
  fun _ => {| ctx := c |}.

Definition ContainerInfo_Host (_ : ContainerInfo) : string := EmptyString.
Definition ContainerInfo_MappedPort (_ : ContainerInfo) (_ : nat_Port)
    : string := EmptyString.

Definition Testcontainers_NewGenericContainer (t : Testcontainers)
    (source : ContainerImageSource) (opts : list GenericContainerOption)
    : GenericContainerDefinition :=
  fold_left (fun c opt => opt c) opts
    {| imageSource := source;
       exposedPorts := [];
       creator := LoggingContainerCreator
                    (ContainerImageCreator (tc_client t)) (tc_logger t);
       starter := DockerContainerStarter (tc_client t);
       terminator := NilTerminator |}.

(** ** Trace events *)

Inductive Event :=
(* a method is invoked through an interface (ghost records) *)
| CallPrepare (src : ContainerImageSource) (c : context_Context)
| CallCreate (cr : ContainerCreator) (c : context_Context)
    (d : GenericContainerDefinition)
| CallStart (st : ContainerStarter) (c : context_Context)
    (cc : CreatedContainer)
(* calls to external collaborators *)
| ClientContainerCreate (client : DockerClient) (c : context_Context)
    (config : option container_Config)
    (hostConfig : option container_HostConfig)
    (networkingConfig : option network_NetworkingConfig)
    (plat : option v1_Platform) (containerName : string)
| ClientContainerStart (client : DockerClient) (c : context_Context)
    (id : string) (opts : container_StartOptions)
| WaitUntilReady (name : string) (c : context_Context) (target : Adapted)
| Log (logger : slog_Logger) (lvl : slog_Level) (msg : string).

(** ** External collaborators *)

Record Runtime (W : Type) := {
  docker_ContainerCreate :
    DockerClient -> context_Context ->
    option container_Config -> option container_HostConfig ->
    option network_NetworkingConfig -> option v1_Platform -> string ->
    W -> (container_CreateResponse * error) * W;
  docker_ContainerStart :
    DockerClient -> context_Context -> string -> container_StartOptions ->
    W -> error * W;
  strategy_WaitUntilReady :
    string -> context_Context -> Adapted -> W -> error * W;
  foreign_Prepare :
    string -> context_Context -> W -> (string * error) * W;
  foreign_Create :
    string -> context_Context -> GenericContainerDefinition ->
    W -> (CreatedContainer * error) * W;
  foreign_Start :
    string -> context_Context -> CreatedContainer ->
    W -> (StartedContainer * error) * W
}.

Arguments docker_ContainerCreate {W}.
Arguments docker_ContainerStart {W}.
Arguments strategy_WaitUntilReady {W}.
Arguments foreign_Prepare {W}.
Arguments foreign_Create {W}.
Arguments foreign_Start {W}.

(** ** The effect monad *)

Inductive Outcome (A : Type) :=
| Returned (a : A)
| Panicked.
Arguments Returned {A}.
Arguments Panicked {A}.

Definition M (W A : Type) : Type := W -> Outcome A * W * list Event.

Definition ret {W A} (a : A) : M W A := fun w => (Returned a, w, []).

Definition panic {W A} : M W A := fun w => (Panicked, w, []).

Definition bind {W A B} (m : M W A) (k : A -> M W B) : M W B :=
  fun w =>
    match m w with
    | (Returned a, w1, t1) =>
        match k a w1 with
        | (r, w2, t2) => (r, w2, t1 ++ t2)
        end
    | (Panicked, w1, t1) => (Panicked, w1, t1)
    end.

Definition emit {W} (e : Event) : M W unit := fun w => (Returned tt, w, [e]).

(** An external call: ask the oracle, record the event. *)
Definition extern {W A} (e : Event) (f : W -> A * W) : M W A :=
  fun w => match f w with (a, w1) => (Returned a, w1, [e]) end.

Declare Scope go_scope.
Delimit Scope go_scope with go.
Notation "x <- m ;; k" := (bind m (fun x => k))
  (at level 61, m at next level, right associativity) : go_scope.
Notation "' pat <- m ;; k" := (bind m (fun x => match x with pat => k end))
  (at level 61, pat pattern, m at next level, right associativity) : go_scope.
Notation "m ;;; k" := (bind m (fun _ => k))
  (at level 61, right associativity) : go_scope.
Open Scope go_scope.

Definition result {W A} (r : Outcome A * W * list Event) : Outcome A :=
  fst (fst r).
Definition world {W A} (r : Outcome A * W * list Event) : W :=
  snd (fst r).
Definition trace {W A} (r : Outcome A * W * list Event) : list Event :=
  snd r.

(** ** The pipeline *)

Section Pipeline.

Variable W : Type.
Variable rt : Runtime W.

Definition client_ContainerCreate (client : DockerClient)
    (c : context_Context) (config : option container_Config)
    (hostConfig : option container_HostConfig)
    (networkingConfig : option network_NetworkingConfig)
    (plat : option v1_Platform) (containerName : string)
    : M W (container_CreateResponse * error) :=
  extern
    (ClientContainerCreate client c config hostConfig networkingConfig
       plat containerName)
    (docker_ContainerCreate rt client c config hostConfig networkingConfig
       plat containerName).

Definition client_ContainerStart (client : DockerClient)
    (c : context_Context) (id : string) (opts : container_StartOptions)
    : M W error :=
  extern (ClientContainerStart client c id opts)
    (docker_ContainerStart rt client c id opts).

Definition wait_WaitUntilReady (s : wait_Strategy) (c : context_Context)
    (target : Adapted) : M W error :=
  match s with
  | NilStrategy => panic
  | Strategy name =>
      extern (WaitUntilReady name c target)
        (strategy_WaitUntilReady rt name c target)
  end.

(** [Logger.Info] and [Logger.Error] first ask the handler whether the
    level is enabled: on the zero Logger that is a call on a nil interface,
    a panic.  With a handler the call returns, leaves a log record and
    does not touch the world. *)
Definition logger_Info (l : slog_Logger) (msg : string) : M W unit :=
  match Logger_handler l with
  | None => panic
  | Some _ => emit (Log l LevelInfo msg)
  end.
Definition logger_Error (l : slog_Logger) (msg : string) : M W unit :=
  match Logger_handler l with
  | None => panic
  | Some _ => emit (Log l LevelError msg)
  end.

(** [ContainerImageSource.Prepare], dispatched on the dynamic type. *)
Definition Prepare (src : ContainerImageSource) (c : context_Context)
    : M W (string * error) :=
  match src with
  | NilImageSource => panic
  | ImageSource_FromImage f =>
      emit (CallPrepare src c) ;;;
      ret (FromImageSource_Prepare f c)
  | ImageSource_Foreign name =>
      extern (CallPrepare src c) (foreign_Prepare rt name c)
  end.

Definition ContainerImageCreator_Create (client : DockerClient)
    (c : context_Context) (d : GenericContainerDefinition)
    : M W (CreatedContainer * error) :=
  '(img, err) <- Prepare (imageSource d) c ;;
  match err with
  | Some _ => ret (zero_CreatedContainer, err)
  | None =>
      (* [img] is not read from here on *)
      '(created, err) <-
         client_ContainerCreate client c None None None None EmptyString ;;
      match err with
      | Some _ => ret (zero_CreatedContainer, err)
      | None =>
          ret ({| ID := CreateResponse_ID created; definition := d |}, None)
      end
  end.

Definition LoggingContainerCreator_Create
    (inner_Create : context_Context -> GenericContainerDefinition ->
                    M W (CreatedContainer * error))
    (logger : slog_Logger)
    (c : context_Context) (d : GenericContainerDefinition)
    : M W (CreatedContainer * error) :=
  logger_Info logger "Creating container" ;;;
  '(create, err) <- inner_Create c d ;;
  match err with
  | Some _ =>
      logger_Error logger "Failed to create container" ;;;
      ret (create, err)
  | None =>
      logger_Info logger "Created container" ;;;
      ret (create, err)
  end.

(** [ContainerCreator.Create], dispatched on the dynamic type. *)
Fixpoint Create (cr : ContainerCreator) (c : context_Context)
    (d : GenericContainerDefinition) {struct cr}
    : M W (CreatedContainer * error) :=
  match cr with
  | NilCreator => panic
  | ContainerImageCreator client =>
      emit (CallCreate cr c d) ;;;
      ContainerImageCreator_Create client c d
  | LoggingContainerCreator inner logger =>
      emit (CallCreate cr c d) ;;;
      LoggingContainerCreator_Create (Create inner) logger c d
  | ForeignCreator name =>
      extern (CallCreate cr c d) (foreign_Create rt name c d)
  end.

Definition DockerContainerStarter_Start (client : DockerClient)
    (c : context_Context) (container : CreatedContainer)
    : M W (StartedContainer * error) :=
  err <- client_ContainerStart client c (ID container) zero_StartOptions ;;
  match err with
  | Some _ => ret (zero_StartedContainer, err)
  | None =>
      ret ({| StartedContainer_CreatedContainer := container |}, None)
  end.

Definition AwaitingContainerStarter_Start
    (inner_Start : context_Context -> CreatedContainer ->
                   M W (StartedContainer * error))
    (wait : wait_Strategy)
    (c : context_Context) (container : CreatedContainer)
    : M W (StartedContainer * error) :=
  '(started, err) <- inner_Start c container ;;
  match err with
  | Some _ => ret (started, err)
  | None =>
      err <- wait_WaitUntilReady wait c
               {| Adapted_container := started |} ;;
      match err with
      | Some _ => ret (started, err)
      | None => ret (started, None)
      end
  end.

(** [ContainerStarter.Start], dispatched on the dynamic type. *)
Fixpoint Start (st : ContainerStarter) (c : context_Context)
    (container : CreatedContainer) {struct st}
    : M W (StartedContainer * error) :=
  match st with
  | NilStarter => panic
  | DockerContainerStarter client =>
      emit (CallStart st c container) ;;;
      DockerContainerStarter_Start client c container
  | AwaitingContainerStarter inner wait =>
      emit (CallStart st c container) ;;;
      AwaitingContainerStarter_Start (Start inner) wait c container
  | ForeignStarter name =>
      extern (CallStart st c container) (foreign_Start rt name c container)
  end.

(** The configuration [Run] and [Info] build from their options. *)
Definition build_conf (opts : list ExecutionOption)
    : ExecutionConfiguration :=
  fold_left (fun conf opt => opt conf) opts
    {| ctx := context_Background |}.

Definition Testcontainers_Run (t : Testcontainers)
    (container : option GenericContainerDefinition)
    (opts : list ExecutionOption)
    : M W (option StartedContainer * error) :=
  let conf := build_conf opts in
  match container with
  | None => panic
  | Some d =>
      '(created, err) <- Create (creator d) (ctx conf) d ;;
      match err with
      | Some _ => ret (None, err)
      | None =>
          '(started, err) <- Start (starter d) (ctx conf) created ;;
          match err with
          | Some _ => ret (None, err)
          | None => ret (Some started, None)
          end
      end
  end.

Definition Testcontainers_Info (t : Testcontainers)
    (container : option StartedContainer) (opts : list ExecutionOption)
    : M W (ContainerInfo * error) :=
  let conf := build_conf opts in
  ret (mkContainerInfo, None).

End Pipeline.

Arguments client_ContainerCreate {W}.
Arguments client_ContainerStart {W}.
Arguments wait_WaitUntilReady {W}.
Arguments logger_Info {W}.
Arguments logger_Error {W}.
Arguments Prepare {W}.
Arguments ContainerImageCreator_Create {W}.
Arguments LoggingContainerCreator_Create {W}.
Arguments Create {W}.
Arguments DockerContainerStarter_Start {W}.
Arguments AwaitingContainerStarter_Start {W}.
Arguments Start {W}.
Arguments Testcontainers_Run {W}.
Arguments Testcontainers_Info {W}.

(** ** The package-level default orchestrator *)

(** [var tc = &Testcontainers{client: &DockerClient{}}]: the logger is
    left at its zero value. *)
Definition tc : Testcontainers :=
  {| tc_client := {| client_handle := 0 |};
     tc_logger := zero_Logger |}.

Definition NewGenericContainer := Testcontainers_NewGenericContainer tc.

Definition Run {W} (rt : Runtime W) := Testcontainers_Run rt tc.

Definition Info {W} := @Testcontainers_Info W tc.

(** ** Observations on traces *)

Definition is_CallStart (e : Event) : bool :=
  match e with CallStart _ _ _ => true | _ => false end.

Definition is_WaitUntilReady (e : Event) : bool :=
  match e with WaitUntilReady _ _ _ => true | _ => false end.


Definition is_ClientContainerCreate (e : Event) : bool :=
  match e with ClientContainerCreate _ _ _ _ _ _ _ => true | _ => false end.






(** The creators and starters of the package itself: a definition built by
    [NewGenericContainer] with [WithExposedPorts] and [WaitingFor] carries
    no other (its fields are unexported). *)
Fixpoint package_creator (cr : ContainerCreator) : bool :=
  match cr with
  | ContainerImageCreator _ => true
  | LoggingContainerCreator inner _ => package_creator inner
  | _ => false
  end.

Fixpoint package_starter (st : ContainerStarter) : bool :=
  match st with
  | DockerContainerStarter _ => true
  | AwaitingContainerStarter inner _ => package_starter inner
  | _ => false
  end.

(** The options the package exports for a definition. *)
Inductive PackageOption :=
| OptExposedPorts (ports : list nat_Port)
| OptWaitingFor (wait : wait_Strategy).

Definition package_option (o : PackageOption) : GenericContainerOption :=
  match o with
  | OptExposedPorts ports => WithExposedPorts ports
  | OptWaitingFor wait => WaitingFor wait
  end.

(** The ports an option of the package contributes. *)
Definition option_ports (o : PackageOption) : list nat_Port :=
  match o with OptExposedPorts ports => ports | OptWaitingFor _ => [] end.

(** Every event a computation can emit satisfies [q]. *)
Definition emits {W A} (q : Event -> Prop) (m : M W A) : Prop :=
  forall w, Forall q (trace (m w)).

(** ** A scripted runtime

    The world is the number of external calls answered so far; the answers
    are fixed by the script. *)

Record Script := {
  script_create : container_CreateResponse * error;
  script_start : error;
  script_wait : error;
  script_prepare : string * error;
  script_foreign_create : CreatedContainer * error;
  script_foreign_start : StartedContainer * error
}.

Definition scripted (s : Script) : Runtime nat :=
  {| docker_ContainerCreate := fun _ _ _ _ _ _ _ n => (script_create s, S n);
     docker_ContainerStart := fun _ _ _ _ n => (script_start s, S n);
     strategy_WaitUntilReady := fun _ _ _ n => (script_wait s, S n);
     foreign_Prepare := fun _ _ n => (script_prepare s, S n);
     foreign_Create := fun _ _ _ n => (script_foreign_create s, S n);
     foreign_Start := fun _ _ _ n => (script_foreign_start s, S n) |}.

(** The runtime creates id [abc]; everything succeeds. *)
Definition all_good : Script :=
  {| script_create :=
       ({| CreateResponse_ID := "abc"; CreateResponse_Warnings := [] |}, None);
     script_start := None;
     script_wait := None;
     script_prepare := ("nginx", None);
     script_foreign_create := (zero_CreatedContainer, None);
     script_foreign_start := (zero_StartedContainer, None) |}.

(** As [all_good], but the readiness strategy times out. *)
Definition wait_times_out : Script :=
  {| script_create := script_create all_good;
     script_start := None;
     script_wait := Some "timeout";
     script_prepare := script_prepare all_good;
     script_foreign_create := script_foreign_create all_good;
     script_foreign_start := script_foreign_start all_good |}.

(** As [all_good], but the runtime refuses to create. *)
Definition create_fails : Script :=
  {| script_create :=
       ({| CreateResponse_ID := EmptyString; CreateResponse_Warnings := [] |},
        Some "create refused");
     script_start := None;
     script_wait := None;
     script_prepare := script_prepare all_good;
     script_foreign_create := script_foreign_create all_good;
     script_foreign_start := script_foreign_start all_good |}.

(** As [all_good], but the runtime refuses to start. *)
Definition start_fails : Script :=
  {| script_create := script_create all_good;
     script_start := Some "start refused";
     script_wait := None;
     script_prepare := script_prepare all_good;
     script_foreign_create := script_foreign_create all_good;
     script_foreign_start := script_foreign_start all_good |}.

(** The runtime answers the create call with an empty id and no error. *)
Definition empty_id : Script :=
  {| script_create :=
       ({| CreateResponse_ID := EmptyString; CreateResponse_Warnings := [] |}, None);
     script_start := None;
     script_wait := None;
     script_prepare := script_prepare all_good;
     script_foreign_create := script_foreign_create all_good;
     script_foreign_start := script_foreign_start all_good |}.

(** The definition of [examples/nginx]. *)
Definition nginx_definition : GenericContainerDefinition :=
  NewGenericContainer
    (ImageSource_FromImage
       (FromImage "nginx" [WithImagePlatform "linux/amd64"]))
    [WithExposedPorts ["80/tcp"];
     WaitingFor (Strategy "ForLog(Server ready)")].

Definition ctx1 : context_Context := context_Derived 1.

(** An orchestrator as a test inside the package sets it up: the default
    client and a logger that has a handler. *)
Definition working_logger : slog_Logger :=
  {| Logger_handler := Some (Handler 1) |}.

Definition tc_logging : Testcontainers :=
  {| tc_client := tc_client tc; tc_logger := working_logger |}.

(** The definition of [examples/nginx], built by that orchestrator. *)
Definition nginx_logged : GenericContainerDefinition :=
  Testcontainers_NewGenericContainer tc_logging
    (ImageSource_FromImage
       (FromImage "nginx" [WithImagePlatform "linux/amd64"]))
    [WithExposedPorts ["80/tcp"];
     WaitingFor (Strategy "ForLog(Server ready)")].

Definition logged_created : CreatedContainer :=
  {| ID := "abc"; definition := nginx_logged |}.

Definition logged_started : StartedContainer :=
  {| StartedContainer_CreatedContainer := logged_created |}.

(** What the pipeline makes of it when the runtime answers with id [abc]. *)
Definition nginx_created : CreatedContainer :=
  {| ID := "abc"; definition := nginx_definition |}.

Definition nginx_started : StartedContainer :=
  {| StartedContainer_CreatedContainer := nginx_created |}.

Definition default_creator : ContainerCreator :=
  ContainerImageCreator (tc_client tc).

Definition default_starter : ContainerStarter :=
  DockerContainerStarter (tc_client tc).

(** ** Further observations on traces and decorator stacks *)

Definition is_ClientContainerStart (e : Event) : bool :=
  match e with ClientContainerStart _ _ _ _ => true | _ => false end.

(** The strategy a [WaitUntilReady] event was sent to. *)
Definition event_wait (e : Event) : list wait_Strategy :=
  match e with WaitUntilReady name _ _ => [Strategy name] | _ => [] end.

(** The strategies waited on along a trace, in the order of the calls. *)
Definition waits_in_trace (tr : list Event) : list wait_Strategy :=
  flat_map event_wait tr.

(** The context an event was called with; a log record has none. *)
Definition event_context (e : Event) : option context_Context :=
  match e with
  | CallPrepare _ c => Some c
  | CallCreate _ c _ => Some c
  | CallStart _ c _ => Some c
  | ClientContainerCreate _ c _ _ _ _ _ => Some c
  | ClientContainerStart _ c _ _ => Some c
  | WaitUntilReady _ c _ => Some c
  | Log _ _ _ => None
  end.

(** The strategies of a stack of readiness decorators, innermost first. *)
Fixpoint starter_waits (st : ContainerStarter) : list wait_Strategy :=
  match st with
  | AwaitingContainerStarter inner wait => starter_waits inner ++ [wait]
  | _ => []
  end.

(** The starter under all the readiness decorators. *)
Fixpoint starter_base (st : ContainerStarter) : ContainerStarter :=
  match st with
  | AwaitingContainerStarter inner _ => starter_base inner
  | _ => st
  end.

(** The strategy an option of the package contributes. *)
Definition option_waits (o : PackageOption) : list wait_Strategy :=
  match o with OptExposedPorts _ => [] | OptWaitingFor wait => [wait] end.

(** ** examples/nginx *)

Record nginxContainer := {
  nginx_StartedContainer : option StartedContainer;
  URI : string
}.

(** [fmt.Sprintf("http://%s:%s", host, port)] *)
Definition Sprintf_http (host port : string) : string :=
  ("http://" ++ host ++ ":" ++ port)%string.

(** [wait.ForLog("Server ready").WithStartupTimeout(10*time.Second)], a
    strategy of package [wait]. *)
Definition ForLog_Server_ready : wait_Strategy :=
  Strategy "ForLog(Server ready)".

Definition startContainer {W} (rt : Runtime W) (c : context_Context)
    : M W (option nginxContainer * error) :=
  '(container, err) <-
     Run rt
       (Some (NewGenericContainer
                (ImageSource_FromImage
                   (FromImage "nginx" [WithImagePlatform "linux/amd64"]))
                [WithExposedPorts ["80/tcp"];
                 WaitingFor ForLog_Server_ready]))
       [WithContext c] ;;
  match err with
  | Some _ => ret (None, err)
  | None =>
      '(info, err) <- Info container [WithContext c] ;;
      match err with
      | Some _ => ret (None, err)
      | None =>
          let uri :=
            Sprintf_http (ContainerInfo_Host info)
              (ContainerInfo_MappedPort info "80") in
          ret (Some {| nginx_StartedContainer := container; URI := uri |},
               None)
      end
  end.

(** ** More scripts *)

(** As [all_good], but an image source from outside the package cannot
    resolve its reference. *)
Definition prepare_fails : Script :=
  {| script_create := script_create all_good;
     script_start := None;
     script_wait := None;
     script_prepare := (EmptyString, Some "no such image");
     script_foreign_create := script_foreign_create all_good;
     script_foreign_start := script_foreign_start all_good |}.

(** A definition whose image comes from a source outside the package. *)
Definition foreign_definition : GenericContainerDefinition :=
  Testcontainers_NewGenericContainer tc_logging
    (ImageSource_Foreign "FromDockerfile")
    [WithExposedPorts ["80/tcp"]; WaitingFor ForLog_Server_ready].

(** Two readiness decorators over the default starter. *)
Definition two_waits : ContainerStarter :=
  AwaitingContainerStarter
    (AwaitingContainerStarter default_starter (Strategy "ForListeningPort"))
    (Strategy "ForLog(Server ready)").

(** The nginx definition with a nil readiness strategy. *)
Definition nil_wait_definition : GenericContainerDefinition :=
  Testcontainers_NewGenericContainer tc_logging
    (ImageSource_FromImage (FromImage "nginx" []))
    [WaitingFor NilStrategy].

(** The runtime client an event was sent to, for the calls to the
    runtime. *)
Definition event_client (e : Event) : option DockerClient :=
  match e with
  | ClientContainerCreate client _ _ _ _ _ _ => Some client
  | ClientContainerStart client _ _ _ => Some client
  | _ => None
  end.

(** Every call that takes a context takes [c]. *)
Definition carries_context (c : context_Context) (e : Event) : Prop :=
  forall c', event_context e = Some c' -> c' = c.

(** Every call to the runtime goes to the client [cl]. *)
Definition goes_to_client (cl : DockerClient) (e : Event) : Prop :=
  forall cl', event_client e = Some cl' -> cl' = cl.

(** The runtime client at the bottom of a stack of logging decorators. *)
Fixpoint creator_client (cr : ContainerCreator) : option DockerClient :=
  match cr with
  | ContainerImageCreator client => Some client
  | LoggingContainerCreator inner _ => creator_client inner
  | _ => None
  end.

(** The nginx definition with a starter from outside the package in place
    of the runtime starter, as a test with a double sets it up. *)
Definition double_definition : GenericContainerDefinition :=
  {| imageSource := imageSource nginx_logged;
     exposedPorts := exposedPorts nginx_logged;
     creator := creator nginx_logged;
     starter := ForeignStarter "double";
     terminator := terminator nginx_logged |}.

(** As [all_good], with a starter double that answers with a container of
    its own. *)
Definition double_answers : Script :=
  {| script_create := script_create all_good;
     script_start := None;
     script_wait := None;
     script_prepare := script_prepare all_good;
     script_foreign_create := script_foreign_create all_good;
     script_foreign_start :=
       ({| StartedContainer_CreatedContainer :=
             {| ID := "xyz"; definition := zero_GenericContainerDefinition |} |},
        None) |}.

(** Waiting on strategies one after the other, each on the same target,
    up to the first that returns an error; its answer is that error, or
    nil when all of them were satisfied. *)
Fixpoint wait_all {W} (rt : Runtime W) (ws : list wait_Strategy)
    (c : context_Context) (target : Adapted) : M W error :=
  match ws with
  | [] => ret None
  | s :: rest =>
      err <- wait_WaitUntilReady rt s c target ;;
      match err with
      | Some _ => ret err
      | None => wait_all rt rest c target
      end
  end.

(** The ghost records of the calls on the decorators of a stack, outermost
    first. *)
Fixpoint layer_calls (st : ContainerStarter) (c : context_Context)
    (container : CreatedContainer) : list Event :=
  match st with
  | AwaitingContainerStarter inner _ =>
      CallStart st c container :: layer_calls inner c container
  | _ => []
  end.

(** A stack of readiness decorators, told in one piece: start with the
    starter under the decorators and, if that succeeded, wait on the
    strategies of the stack, innermost first, up to the first failure. *)
Definition base_then_waits {W} (rt : Runtime W) (st : ContainerStarter)
    (c : context_Context) (container : CreatedContainer)
    : M W (StartedContainer * error) :=
  fun w =>
    match
      ('(started, err) <- Start rt (starter_base st) c container ;;
       match err with
       | Some _ => ret (started, err)
       | None =>
           err <- wait_all rt (starter_waits st) c
                    {| Adapted_container := started |} ;;
           ret (started, err)
       end) w
    with
    | (r, w1, t1) => (r, w1, layer_calls st c container ++ t1)
    end.

(** * Properties *)

(** ** The builder *)

Lemma WithExposedPorts_fields (ports : list nat_Port)
    (c : GenericContainerDefinition) :
  WithExposedPorts ports c =
  {| imageSource := imageSource c;
     exposedPorts := exposedPorts c ++ ports;
     creator := creator c;
     starter := starter c;
     terminator := terminator c |}.
Proof.
  unfold WithExposedPorts.
  revert c; induction ports as [|p ports IH]; intro c; simpl.
  - rewrite app_nil_r; destruct c; reflexivity.
  - rewrite IH; simpl. rewrite <- app_assoc; reflexivity.
Qed.

Lemma WithExposedPorts_appends (ports : list nat_Port)
    (c : GenericContainerDefinition) :
  exposedPorts (WithExposedPorts ports c) = exposedPorts c ++ ports.
Proof. rewrite WithExposedPorts_fields; reflexivity. Qed.

Lemma fold_WithExposedPorts (pss : list (list nat_Port))
    (c : GenericContainerDefinition) :
  exposedPorts (fold_left (fun c opt => opt c) (map WithExposedPorts pss) c)
  = exposedPorts c ++ concat pss.
Proof.
  revert c; induction pss as [|ps pss IH]; intro c; simpl.
  - now rewrite app_nil_r.
  - rewrite IH, WithExposedPorts_appends, <- app_assoc; reflexivity.
Qed.

Lemma length_concat_sum {A} (xss : list (list A)) :
  length (concat xss) = list_sum (map (@length A) xss).
Proof.
  induction xss as [|xs xss IH]; simpl; [reflexivity|].
  now rewrite length_app, IH.
Qed.

(** C6: on a fresh definition, any sequence of [WithExposedPorts] options
    leaves as exposed-port list the concatenation of the supplied port
    lists, in the order supplied and with every duplicate kept; its length
    is the total number of ports supplied. *)
Theorem WithExposedPorts_pure_append :
  forall (t : Testcontainers) (source : ContainerImageSource)
         (pss : list (list nat_Port)),
    let d := Testcontainers_NewGenericContainer t source
               (map WithExposedPorts pss) in
    exposedPorts d = concat pss
    /\ length (exposedPorts d) = list_sum (map (@length nat_Port) pss)
    /\ forall p : nat_Port,
         count_occ string_dec (exposedPorts d) p
         = list_sum (map (fun ps => count_occ string_dec ps p) pss).
Proof.
  intros t source pss d.
  assert (E : exposedPorts d = concat pss).
  { unfold d, Testcontainers_NewGenericContainer.
    rewrite fold_WithExposedPorts; reflexivity. }
  rewrite E; split; [reflexivity|split].
  - apply length_concat_sum.
  - intro p. clear. induction pss as [|ps pss IH]; [reflexivity|].
    cbn [concat map list_sum fold_right]. rewrite count_occ_app.
    f_equal. exact IH.
Qed.

Example WithExposedPorts_keeps_duplicates :
  exposedPorts
    (NewGenericContainer NilImageSource
       [WithExposedPorts ["80/tcp"; "443/tcp"]; WithExposedPorts [];
        WithExposedPorts ["80/tcp"]])
  = ["80/tcp"; "443/tcp"; "80/tcp"].
Proof. reflexivity. Qed.

(** Options of the package, in any order: only [WithExposedPorts] touches
    the port list, only [WaitingFor] the starter, nothing the creator. *)

Lemma package_options_shape (os : list PackageOption)
    (c : GenericContainerDefinition) :
  let d := fold_left (fun c opt => opt c) (map package_option os) c in
  imageSource d = imageSource c
  /\ exposedPorts d = exposedPorts c ++ concat (map option_ports os)
  /\ creator d = creator c
  /\ (package_starter (starter c) = true ->
      package_starter (starter d) = true).
Proof.
  revert c; induction os as [|o os IH]; intro c; simpl.
  - rewrite app_nil_r; auto.
  - destruct (IH (package_option o c)) as (Hi & Hp & Hc & Hs).
    destruct o as [ports|wait]; simpl in *.
    + rewrite WithExposedPorts_fields in *; simpl in *.
      rewrite Hi, Hp, Hc, <- app_assoc; auto.
    + rewrite Hi, Hp, Hc; auto.
Qed.

Lemma NewGenericContainer_package (t : Testcontainers)
    (source : ContainerImageSource) (os : list PackageOption) :
  let d := Testcontainers_NewGenericContainer t source
             (map package_option os) in
  imageSource d = source
  /\ exposedPorts d = concat (map option_ports os)
  /\ creator d = LoggingContainerCreator
                   (ContainerImageCreator (tc_client t)) (tc_logger t)
  /\ package_starter (starter d) = true.
Proof.
  unfold Testcontainers_NewGenericContainer.
  match goal with
  | |- context [fold_left _ _ ?c] =>
      destruct (package_options_shape os c) as (Hi & Hp & Hc & Hs)
  end.
  simpl in *. auto.
Qed.

(** ** The image source *)

Lemma FromImage_platform_options (img : string) (plats : list string) :
  image (FromImage img (map WithImagePlatform plats)) = img.
Proof.
  unfold FromImage.
  generalize (@None v1_Platform) as p.
  induction plats as [|x plats IH]; intro p; simpl; [reflexivity|].
  apply IH.
Qed.

(** C7: [Prepare] on a [FromImage] source returns the stored image with a
    nil error, whatever the platform options and the context; through the
    interface it leaves the world as it was, so that a second call returns
    the same reference; the nginx example returns [("nginx", nil)]. *)
Theorem FromImage_Prepare_returns_image :
  (forall (img : string) (plats : list string) (c : context_Context),
     FromImageSource_Prepare (FromImage img (map WithImagePlatform plats)) c
     = (img, None))
  /\ (forall W (rt : Runtime W) (f : FromImageSource)
             (c c' : context_Context) (w : W),
        result (Prepare rt (ImageSource_FromImage f) c w)
          = Returned (image f, None)
        /\ world (Prepare rt (ImageSource_FromImage f) c w) = w
        /\ result ((r1 <- Prepare rt (ImageSource_FromImage f) c ;;
                    r2 <- Prepare rt (ImageSource_FromImage f) c' ;;
                    ret (r1, r2)) w)
           = Returned ((image f, None), (image f, None)))
  /\ FromImageSource_Prepare
       (FromImage "nginx" [WithImagePlatform "linux/amd64"]) ctx1
     = ("nginx", None).
Proof.
  split; [|split].
  - intros img plats c. unfold FromImageSource_Prepare.
    now rewrite FromImage_platform_options.
  - intros W rt f c c' w. repeat split.
  - reflexivity.
Qed.

(** C9: [WithImagePlatform] does not read its argument: the source's
    platform becomes amd64/linux whatever the string, and two [FromImage]
    calls that differ only in the platform string build equal sources. *)
Theorem WithImagePlatform_ignores_argument :
  (forall (p : string) (s : FromImageSource),
     WithImagePlatform p s =
     {| image := image s;
        platform := Some {| Architecture := "amd64"; OS := "linux";
                            OSVersion := EmptyString; OSFeatures := [];
                            Variant := EmptyString |} |})
  /\ (forall (img p q : string),
        FromImage img [WithImagePlatform p]
        = FromImage img [WithImagePlatform q])
  /\ (forall (img p : string),
        option_map Architecture
          (platform (FromImage img [WithImagePlatform p])) = Some "amd64"
        /\ option_map OS
             (platform (FromImage img [WithImagePlatform p])) = Some "linux").
Proof.
  repeat split.
Qed.

(** ** Info *)


(** ** The effect monad *)

Lemma bind_Returned {W A B} (m : M W A) (k : A -> M W B)
    (w w1 : W) (a : A) (t1 : list Event) :
  m w = (Returned a, w1, t1) ->
  bind m k w = (result (k a w1), world (k a w1), t1 ++ trace (k a w1)).
Proof.
  intro H; unfold bind; rewrite H.
  destruct (k a w1) as [[r w2] t2]; reflexivity.
Qed.

Lemma bind_trace_eq {W A B} (m : M W A) (k : A -> M W B) (w : W) :
  bind m k w
  = match m w with
    | (Returned a, w1, t1) =>
        match k a w1 with
        | (r, w2, t2) => (r, w2, t1 ++ t2)
        end
    | (Panicked, w1, t1) => (Panicked, w1, t1)
    end.
Proof. reflexivity. Qed.

Lemma bind_emit {W B} (e : Event) (k : unit -> M W B) (w : W) :
  bind (emit e) k w = (result (k tt w), world (k tt w), e :: trace (k tt w)).
Proof. apply (bind_Returned (emit e) k w w tt [e]); reflexivity. Qed.

Section Emits.

Context {W : Type} (q : Event -> Prop).

Lemma emits_ret {A} (a : A) : emits q (@ret W A a).
Proof. intro w; constructor. Qed.

Lemma emits_panic {A} : emits q (@panic W A).
Proof. intro w; constructor. Qed.

Lemma emits_emit (e : Event) : q e -> emits q (@emit W e).
Proof. intros H w; repeat constructor; exact H. Qed.

Lemma emits_extern {A} (e : Event) (f : W -> A * W) :
  q e -> emits q (extern e f).
Proof.
  intros H w; unfold extern, trace.
  destruct (f w); repeat constructor; exact H.
Qed.

Lemma emits_bind {A B} (m : M W A) (k : A -> M W B) :
  emits q m -> (forall a, emits q (k a)) -> emits q (bind m k).
Proof.
  intros Hm Hk w; unfold bind, trace.
  specialize (Hm w); unfold trace in Hm.
  destruct (m w) as [[[a|] w1] t1]; simpl in *; [|exact Hm].
  specialize (Hk a w1); unfold trace in Hk.
  destruct (k a w1) as [[r w2] t2]; simpl in *.
  apply Forall_app; split; assumption.
Qed.

End Emits.


(** The logger: a log record with a handler, a panic without. *)
Lemma emits_logger_Info {W} (q : Event -> Prop) (l : slog_Logger)
    (msg : string) :
  q (Log l LevelInfo msg) -> emits q (@logger_Info W l msg).
Proof.
  intro H. unfold logger_Info.
  destruct (Logger_handler l); [apply emits_emit; exact H|apply emits_panic].
Qed.

Lemma emits_logger_Error {W} (q : Event -> Prop) (l : slog_Logger)
    (msg : string) :
  q (Log l LevelError msg) -> emits q (@logger_Error W l msg).
Proof.
  intro H. unfold logger_Error.
  destruct (Logger_handler l); [apply emits_emit; exact H|apply emits_panic].
Qed.

Lemma logger_Info_handler {W} (l : slog_Logger) (h : slog_Handler)
    (msg : string) :
  Logger_handler l = Some h -> @logger_Info W l msg = emit (Log l LevelInfo msg).
Proof. intro H. unfold logger_Info. now rewrite H. Qed.

Lemma logger_Error_handler {W} (l : slog_Logger) (h : slog_Handler)
    (msg : string) :
  Logger_handler l = Some h ->
  @logger_Error W l msg = emit (Log l LevelError msg).
Proof. intro H. unfold logger_Error. now rewrite H. Qed.

Lemma logger_Info_returns {W} (l : slog_Logger) (msg : string) (w w1 : W)
    (u : unit) (t : list Event) :
  logger_Info l msg w = (Returned u, w1, t) ->
  w1 = w /\ exists h, Logger_handler l = Some h.
Proof.
  unfold logger_Info. destruct (Logger_handler l) as [h|]; [|discriminate].
  unfold emit. intro H. injection H as _ <- _. split; [reflexivity|now exists h].
Qed.

(** Walks through a computation built from the monad's operations. *)
Ltac emits_walk :=
  repeat first
    [ apply emits_ret
    | apply emits_panic
    | apply emits_emit
    | apply emits_logger_Info
    | apply emits_logger_Error
    | apply emits_extern
    | apply emits_bind
    | match goal with
      | |- forall _ : _ * _, _ => intros [? ?]
      | |- forall _, _ => intro
      | |- emits _ (match ?x with _ => _ end) => destruct x
      end ].

(** ** Creators *)



(** No creator ever calls a starter. *)
Lemma Create_no_CallStart {W} (rt : Runtime W) (cr : ContainerCreator)
    (c : context_Context) (d : GenericContainerDefinition) :
  emits (fun e => is_CallStart e = false) (Create rt cr c d).
Proof.
  induction cr as [|client|inner IH logger|name]; simpl.
  - apply emits_panic.
  - unfold ContainerImageCreator_Create, Prepare, client_ContainerCreate.
    emits_walk; reflexivity.
  - unfold LoggingContainerCreator_Create.
    apply emits_bind; [apply emits_emit; reflexivity|intros _].
    apply emits_bind; [apply emits_logger_Info; reflexivity|intros _].
    apply emits_bind; [exact IH|].
    emits_walk; reflexivity.
  - apply emits_extern; reflexivity.
Qed.





Lemma bind_inv {W A B} (m : M W A) (k : A -> M W B)
    (w w2 : W) (b : B) (t : list Event) :
  bind m k w = (Returned b, w2, t) ->
  exists a w1 t1 t2,
    m w = (Returned a, w1, t1)
    /\ k a w1 = (Returned b, w2, t2)
    /\ t = t1 ++ t2.
Proof.
  unfold bind. destruct (m w) as [[[a|] w1] t1]; [|discriminate].
  destruct (k a w1) as [[r w2'] t2] eqn:E.
  intro H; injection H as -> -> <-.
  exists a, w1, t1, t2; auto.
Qed.


(** What the logging decorator makes of an inner call that returns, when
    its logger has a handler. *)
Lemma Logging_Create_returns {W} (rt : Runtime W) (inner : ContainerCreator)
    (logger : slog_Logger) (h : slog_Handler) (c : context_Context)
    (d : GenericContainerDefinition) (w w1 : W) (create : CreatedContainer)
    (err : error) (tr1 : list Event) :
  Logger_handler logger = Some h ->
  Create rt inner c d w = (Returned (create, err), w1, tr1) ->
  Create rt (LoggingContainerCreator inner logger) c d w
  = (Returned (create, err), w1,
     [CallCreate (LoggingContainerCreator inner logger) c d;
      Log logger LevelInfo "Creating container"]
     ++ tr1
     ++ [match err with
         | Some _ => Log logger LevelError "Failed to create container"
         | None => Log logger LevelInfo "Created container"
         end]).
Proof.
  intros Hh H. cbn [Create].
  unfold LoggingContainerCreator_Create.
  rewrite !(logger_Info_handler _ _ _ Hh), (logger_Error_handler _ _ _ Hh).
  rewrite bind_emit, bind_emit.
  rewrite (bind_Returned _ _ _ _ _ _ H).
  destruct err; reflexivity.
Qed.

(** With the zero Logger the decorator panics at its first log call: the
    inner creator is not reached. *)
Lemma Logging_Create_zero_logger {W} (rt : Runtime W)
    (inner : ContainerCreator) (logger : slog_Logger) (c : context_Context)
    (d : GenericContainerDefinition) (w : W) :
  Logger_handler logger = None ->
  Create rt (LoggingContainerCreator inner logger) c d w
  = (Panicked, w, [CallCreate (LoggingContainerCreator inner logger) c d]).
Proof.
  intro Hh. cbn [Create]. rewrite bind_emit.
  unfold LoggingContainerCreator_Create, logger_Info. rewrite Hh.
  reflexivity.
Qed.




(** ** Run, when Create fails *)

(** C3: when [Create] returns an error, [Run] returns the nil handle with
    that very error, in the world and with the trace [Create] left, and
    that trace holds no call of [Start] on any starter. *)
Theorem Run_Create_error :
  forall W (rt : Runtime W) (t : Testcontainers)
         (d : GenericContainerDefinition) (opts : list ExecutionOption)
         (w w1 : W) (created : CreatedContainer) (e : string)
         (tr1 : list Event),
    Create rt (creator d) (ctx (build_conf opts)) d w
      = (Returned (created, Some e), w1, tr1) ->
    Testcontainers_Run rt t (Some d) opts w
      = (Returned (None, Some e), w1, tr1)
    /\ forall st c cc,
         ~ In (CallStart st c cc)
              (trace (Testcontainers_Run rt t (Some d) opts w)).
Proof.
  intros W rt t d opts w w1 created e tr1 H.
  assert (HR : Testcontainers_Run rt t (Some d) opts w
               = (Returned (None, Some e), w1, tr1)).
  { unfold Testcontainers_Run. cbv zeta.
    rewrite (bind_Returned _ _ _ _ _ _ H).
    cbn. now rewrite app_nil_r. }
  split; [exact HR|].
  intros st c cc Hin. rewrite HR in Hin. cbn [trace snd] in Hin.
  pose proof (Create_no_CallStart rt (creator d) (ctx (build_conf opts)) d w)
    as HF.
  rewrite H in HF. cbn [trace snd] in HF.
  rewrite Forall_forall in HF. specialize (HF _ Hin). discriminate HF.
Qed.

Lemma Run_Create_error_witness :
  Testcontainers_Run (scripted create_fails) tc_logging (Some nginx_logged)
    [WithContext ctx1] 0
  = (Returned (None, Some "create refused"), 1,
     [CallCreate (creator nginx_logged) ctx1 nginx_logged;
      Log working_logger LevelInfo "Creating container";
      CallCreate default_creator ctx1 nginx_logged;
      CallPrepare (imageSource nginx_logged) ctx1;
      ClientContainerCreate (tc_client tc) ctx1 None None None None
        EmptyString;
      Log working_logger LevelError "Failed to create container"]).
Proof.
  apply (Run_Create_error nat (scripted create_fails) tc_logging nginx_logged
           [WithContext ctx1] 0 1 zero_CreatedContainer "create refused").
  reflexivity.
Defined.

(** ** Starters *)

(** C4: when the inner [Start] returns an error, the readiness-awaiting
    decorator returns exactly what the inner call returned, in the world
    and with the trace the inner call left: it adds no call of its own, in
    particular no [WaitUntilReady].  Through the interface the only event
    added is the ghost record of the call on the decorator itself. *)
Theorem AwaitingContainerStarter_inner_error :
  forall W (rt : Runtime W) (inner : ContainerStarter) (wait : wait_Strategy)
         (c : context_Context) (container : CreatedContainer) (w w1 : W)
         (started : StartedContainer) (e : string) (tr1 : list Event),
    Start rt inner c container w = (Returned (started, Some e), w1, tr1) ->
    AwaitingContainerStarter_Start rt (Start rt inner) wait c container w
      = (Returned (started, Some e), w1, tr1)
    /\ Start rt (AwaitingContainerStarter inner wait) c container w
       = (Returned (started, Some e), w1,
          CallStart (AwaitingContainerStarter inner wait) c container :: tr1)
    /\ filter is_WaitUntilReady
         (trace (Start rt (AwaitingContainerStarter inner wait) c container w))
       = filter is_WaitUntilReady tr1.
Proof.
  intros W rt inner wait c container w w1 started e tr1 H.
  assert (HA : AwaitingContainerStarter_Start rt (Start rt inner) wait c
                 container w = (Returned (started, Some e), w1, tr1)).
  { unfold AwaitingContainerStarter_Start.
    rewrite (bind_Returned _ _ _ _ _ _ H). cbn. now rewrite app_nil_r. }
  assert (HS : Start rt (AwaitingContainerStarter inner wait) c container w
               = (Returned (started, Some e), w1,
                  CallStart (AwaitingContainerStarter inner wait) c container
                  :: tr1)).
  { cbn [Start]. rewrite bind_emit, HA. reflexivity. }
  split; [exact HA|split; [exact HS|]].
  rewrite HS. reflexivity.
Qed.

Lemma AwaitingContainerStarter_inner_error_witness :
  Start (scripted start_fails)
    (AwaitingContainerStarter (DockerContainerStarter (tc_client tc))
       (Strategy "ForLog(Server ready)"))
    ctx1 {| ID := "abc"; definition := nginx_definition |} 1
  = (Returned (zero_StartedContainer, Some "start refused"), 2,
     [CallStart
        (AwaitingContainerStarter (DockerContainerStarter (tc_client tc))
           (Strategy "ForLog(Server ready)"))
        ctx1 {| ID := "abc"; definition := nginx_definition |};
      CallStart (DockerContainerStarter (tc_client tc)) ctx1
        {| ID := "abc"; definition := nginx_definition |};
      ClientContainerStart (tc_client tc) ctx1 "abc" zero_StartOptions]).
Proof.
  apply (AwaitingContainerStarter_inner_error nat (scripted start_fails)
           (DockerContainerStarter (tc_client tc))
           (Strategy "ForLog(Server ready)") ctx1
           {| ID := "abc"; definition := nginx_definition |} 1 2
           zero_StartedContainer "start refused").
  reflexivity.
Defined.

(** A starter of the package that succeeds hands back the very container
    it was given. *)
Lemma Start_package_wraps {W} (rt : Runtime W) (st : ContainerStarter) :
  package_starter st = true ->
  forall (c : context_Context) (container : CreatedContainer) (w w1 : W)
         (started : StartedContainer) (tr : list Event),
    Start rt st c container w = (Returned (started, None), w1, tr) ->
    StartedContainer_CreatedContainer started = container.
Proof.
  induction st as [|client|inner IH wait|name]; simpl; try discriminate.
  - intros _ c container w w1 started tr H.
    apply bind_inv in H. destruct H as ([] & wa & ta & tb & _ & H & _).
    unfold DockerContainerStarter_Start in H.
    apply bind_inv in H. destruct H as (err & wb & tc' & td & _ & H & _).
    destruct err; unfold ret in H; [discriminate H|].
    injection H as <- _ _; reflexivity.
  - intros Hp c container w w1 started tr H.
    apply bind_inv in H. destruct H as ([] & wa & ta & tb & Ha & H & _).
    unfold emit in Ha. injection Ha as <- _.
    unfold AwaitingContainerStarter_Start in H.
    apply bind_inv in H.
    destruct H as ([started' err'] & wb & tc' & td & Hin & H & _).
    destruct err' as [e'|].
    + unfold ret in H. discriminate H.
    + apply bind_inv in H. destruct H as (err & wc & te & tf & _ & H & _).
      destruct err; unfold ret in H; [discriminate H|].
      injection H as <- _ _.
      exact (IH Hp _ _ _ _ _ _ Hin).
Qed.

(** ** Run, when the readiness strategy fails *)

(** C1, as the code has it: when creation and the inner start succeed and
    the readiness strategy returns an error, the decorator's [Start]
    returns the started container the inner start returned together with
    that error, and [Run] returns the nil handle together with that error.
    The started container wraps the created one whenever the inner starter
    is the runtime starter, under further readiness decorators or not. *)
Theorem Run_readiness_error :
  forall W (rt : Runtime W) (t : Testcontainers)
         (d : GenericContainerDefinition) (opts : list ExecutionOption)
         (inner : ContainerStarter) (name : string)
         (w w1 w2 w3 : W) (created : CreatedContainer)
         (started : StartedContainer) (e : string)
         (tr1 tr2 : list Event),
    starter d = AwaitingContainerStarter inner (Strategy name) ->
    Create rt (creator d) (ctx (build_conf opts)) d w
      = (Returned (created, None), w1, tr1) ->
    Start rt inner (ctx (build_conf opts)) created w1
      = (Returned (started, None), w2, tr2) ->
    strategy_WaitUntilReady rt name (ctx (build_conf opts))
      {| Adapted_container := started |} w2 = (Some e, w3) ->
    Start rt (starter d) (ctx (build_conf opts)) created w1
      = (Returned (started, Some e), w3,
         CallStart (starter d) (ctx (build_conf opts)) created
         :: tr2
         ++ [WaitUntilReady name (ctx (build_conf opts))
               {| Adapted_container := started |}])
    /\ Testcontainers_Run rt t (Some d) opts w
       = (Returned (None, Some e), w3,
          tr1
          ++ CallStart (starter d) (ctx (build_conf opts)) created
             :: tr2
             ++ [WaitUntilReady name (ctx (build_conf opts))
                   {| Adapted_container := started |}])
    /\ (package_starter inner = true ->
        StartedContainer_CreatedContainer started = created).
Proof.
  intros W rt t d opts inner name w w1 w2 w3 created started e tr1 tr2
         Hst Hc Hs Hw.
  assert (HS : Start rt (starter d) (ctx (build_conf opts)) created w1
               = (Returned (started, Some e), w3,
                  CallStart (starter d) (ctx (build_conf opts)) created
                  :: tr2
                  ++ [WaitUntilReady name (ctx (build_conf opts))
                        {| Adapted_container := started |}])).
  { rewrite Hst. cbn [Start]. rewrite bind_emit.
    unfold AwaitingContainerStarter_Start.
    rewrite (bind_Returned _ _ _ _ _ _ Hs).
    unfold wait_WaitUntilReady, extern, bind. rewrite Hw. reflexivity. }
  split; [exact HS|split].
  - unfold Testcontainers_Run. cbv zeta.
    rewrite (bind_Returned _ _ _ _ _ _ Hc).
    rewrite (bind_Returned _ _ _ _ _ _ HS).
    cbn. now rewrite app_nil_r.
  - intro Hp. exact (Start_package_wraps rt inner Hp _ _ _ _ _ _ Hs).
Qed.

Lemma Run_readiness_error_witness :
  result (Testcontainers_Run (scripted wait_times_out) tc_logging
            (Some nginx_logged) [WithContext ctx1] 0)
    = Returned (None, Some "timeout")
  /\ result (Start (scripted wait_times_out) (starter nginx_logged) ctx1
               logged_created 1)
     = Returned (logged_started, Some "timeout")
  /\ StartedContainer_CreatedContainer logged_started = logged_created.
Proof.
  destruct (Run_readiness_error nat (scripted wait_times_out) tc_logging
              nginx_logged [WithContext ctx1] default_starter
              "ForLog(Server ready)" 0 1 2 3 logged_created logged_started
              "timeout" _ _ eq_refl eq_refl eq_refl eq_refl)
    as (HS & HR & Hwrap).
  split; [exact (f_equal result HR)|split].
  - exact (f_equal result HS).
  - exact (Hwrap eq_refl).
Defined.

(** C1 as stated fails.  An orchestrator whose logger has a handler runs
    the nginx definition it built, against a runtime that creates and
    starts the container and a readiness strategy that times out: creation
    succeeds, the inner start succeeds, the strategy returns the timeout,
    the decorator returns the started container with the timeout, and the
    handle [Run] returns is nil. *)
Lemma readiness_timeout_loses_handle :
  result (Create (scripted wait_times_out) (creator nginx_logged) ctx1
            nginx_logged 0)
    = Returned (logged_created, None)
  /\ starter nginx_logged
     = AwaitingContainerStarter default_starter
         (Strategy "ForLog(Server ready)")
  /\ result (Start (scripted wait_times_out) default_starter ctx1
               logged_created 1)
     = Returned (logged_started, None)
  /\ strategy_WaitUntilReady (scripted wait_times_out) "ForLog(Server ready)"
       ctx1 {| Adapted_container := logged_started |} 2 = (Some "timeout", 3)
  /\ result (Start (scripted wait_times_out) (starter nginx_logged) ctx1
               logged_created 1)
     = Returned (logged_started, Some "timeout")
  /\ result (Testcontainers_Run (scripted wait_times_out) tc_logging
               (Some nginx_logged) [WithContext ctx1] 0)
     = Returned (None, Some "timeout")
  /\ ~ exists sc : StartedContainer,
         result (Testcontainers_Run (scripted wait_times_out) tc_logging
                   (Some nginx_logged) [WithContext ctx1] 0)
         = Returned (Some sc, Some "timeout").
Proof.
  repeat split.
  intros [sc H]. discriminate H.
Qed.

(** ** The base creator *)

(** A creator of the package that succeeds returns the definition it was
    given and the id of a create response of the runtime. *)
Lemma Create_package_ID {W} (rt : Runtime W) (cr : ContainerCreator) :
  package_creator cr = true ->
  forall (c : context_Context) (d : GenericContainerDefinition) (w w1 : W)
         (created : CreatedContainer) (tr : list Event),
    Create rt cr c d w = (Returned (created, None), w1, tr) ->
    definition created = d
    /\ exists client resp wa,
         docker_ContainerCreate rt client c None None None None EmptyString wa
           = ((resp, None), w1)
         /\ ID created = CreateResponse_ID resp.
Proof.
  induction cr as [|client|inner IH logger|name]; simpl; try discriminate.
  - intros _ c d w w1 created tr H.
    apply bind_inv in H. destruct H as ([] & wa & ta & tb & _ & H & _).
    unfold ContainerImageCreator_Create in H.
    apply bind_inv in H.
    destruct H as ([img err] & wb & tc' & td & _ & H & _).
    destruct err; [discriminate H|].
    apply bind_inv in H.
    destruct H as ([resp err] & wc & te & tf & Hc & H & _).
    destruct err; [discriminate H|].
    unfold ret in H. injection H as <- <- _.
    split; [reflexivity|].
    unfold client_ContainerCreate, extern in Hc.
    destruct (docker_ContainerCreate rt client c None None None None EmptyString wb)
      as [[resp' err'] wc'] eqn:E.
    injection Hc as -> -> -> _.
    exists client, resp, wb. split; [exact E|reflexivity].
  - intros Hp c d w w1 created tr H.
    apply bind_inv in H. destruct H as ([] & wa & ta & tb & Ha & H & _).
    unfold emit in Ha. injection Ha as <- _.
    unfold LoggingContainerCreator_Create in H.
    apply bind_inv in H. destruct H as ([] & wb & tc' & td & Hb & H & _).
    apply logger_Info_returns in Hb. destruct Hb as [-> _].
    apply bind_inv in H.
    destruct H as ([create err] & wc & te & tf & Hin & H & _).
    destruct err.
    + apply bind_inv in H. destruct H as ([] & ? & ? & ? & _ & H & _).
      discriminate H.
    + apply bind_inv in H. destruct H as ([] & wd & tg & th & Hd & H & _).
      apply logger_Info_returns in Hd. destruct Hd as [-> _].
      unfold ret in H. injection H as <- <- _.
      exact (IH Hp _ _ _ _ _ _ Hin).
Qed.

(** Whatever the definition, the world and the runtime, the only request
    the base creator ever sends to the runtime is the one with no
    configuration at all. *)
Lemma ContainerImageCreator_request {W} (rt : Runtime W)
    (client : DockerClient) (c : context_Context)
    (d : GenericContainerDefinition) :
  emits (fun e => is_ClientContainerCreate e = true ->
                  e = ClientContainerCreate client c None None None None EmptyString)
    (ContainerImageCreator_Create rt client c d).
Proof.
  unfold ContainerImageCreator_Create, Prepare, client_ContainerCreate.
  emits_walk; simpl; solve [discriminate | reflexivity].
Qed.

(** C2, on the nginx definition (image [nginx], exposed port [80/tcp]):
    the base creator calls [Prepare] first, then sends the runtime a create
    request, and returns the runtime's id with the definition; but the
    request carries no configuration, neither the image [Prepare] resolved
    nor the exposed ports. *)
Theorem ContainerImageCreator_request_omits_image_and_ports :
  FromImageSource_Prepare
    (FromImage "nginx" [WithImagePlatform "linux/amd64"]) ctx1
    = ("nginx", None)
  /\ exposedPorts nginx_definition = ["80/tcp"]
  /\ Create (scripted all_good) (ContainerImageCreator (tc_client tc)) ctx1
       nginx_definition 0
     = (Returned ({| ID := "abc"; definition := nginx_definition |}, None), 1,
        [CallCreate (ContainerImageCreator (tc_client tc)) ctx1
           nginx_definition;
         CallPrepare (imageSource nginx_definition) ctx1;
         ClientContainerCreate (tc_client tc) ctx1 None None None None EmptyString]).
Proof.
  repeat split.
Qed.

(** ** Run, when it succeeds *)

(** Where the id of a created container comes from: the create response
    the client at the bottom of the stack gave in the world [Prepare]
    left. *)
Lemma Create_package_response {W} (rt : Runtime W) (cr : ContainerCreator)
    (client : DockerClient) :
  creator_client cr = Some client ->
  forall (c : context_Context) (d : GenericContainerDefinition) (w w1 : W)
         (created : CreatedContainer) (tr : list Event),
    Create rt cr c d w = (Returned (created, None), w1, tr) ->
    exists resp,
      docker_ContainerCreate rt client c None None None None EmptyString
        (world (Prepare rt (imageSource d) c w)) = ((resp, None), w1)
      /\ ID created = CreateResponse_ID resp.
Proof.
  induction cr as [|client'|inner IH logger|name]; simpl; try discriminate.
  - intros Hcl c d w w1 created tr H. injection Hcl as ->.
    apply bind_inv in H. destruct H as ([] & wa & ta & tb & Ha & H & _).
    unfold emit in Ha. injection Ha as <- _.
    unfold ContainerImageCreator_Create in H.
    apply bind_inv in H.
    destruct H as ([img err] & wb & tc' & td & HP & H & _).
    rewrite HP. cbn [world fst snd].
    destruct err; [discriminate H|].
    apply bind_inv in H.
    destruct H as ([resp err] & wc & te & tf & Hc & H & _).
    destruct err; [discriminate H|].
    unfold ret in H. injection H as <- <- _.
    unfold client_ContainerCreate, extern in Hc.
    destruct (docker_ContainerCreate rt client c None None None None
                EmptyString wb) as [[resp' err'] wc'].
    injection Hc as -> -> -> _.
    exists resp. split; reflexivity.
  - intros Hcl c d w w1 created tr H.
    apply bind_inv in H. destruct H as ([] & wa & ta & tb & Ha & H & _).
    unfold emit in Ha. injection Ha as <- _.
    unfold LoggingContainerCreator_Create in H.
    apply bind_inv in H. destruct H as ([] & wb & tc' & td & Hb & H & _).
    apply logger_Info_returns in Hb. destruct Hb as [-> _].
    apply bind_inv in H.
    destruct H as ([create err] & wc & te & tf & Hin & H & _).
    destruct err.
    + apply bind_inv in H. destruct H as ([] & ? & ? & ? & _ & H & _).
      discriminate H.
    + apply bind_inv in H. destruct H as ([] & wd & tg & th & Hd & H & _).
      apply logger_Info_returns in Hd. destruct Hd as [-> _].
      unfold ret in H. injection H as <- <- _.
      exact (IH Hcl _ _ _ _ _ _ Hin).
Qed.

(** C8, as the code has it: when [Run] returns without error on a
    definition whose starter is the runtime starter, under readiness
    decorators or not, the returned container wraps the container the
    create stage of that call produced, so the two ids are equal.  The id
    is not checked: with the package's creators it is the id of the
    response the runtime client gave to the create request, and both ids
    are non-empty exactly when that id is. *)
Theorem Run_success_same_ID :
  forall W (rt : Runtime W) (t : Testcontainers)
         (d : GenericContainerDefinition) (opts : list ExecutionOption)
         (w w' : W) (started : StartedContainer) (tr : list Event),
    package_starter (starter d) = true ->
    Testcontainers_Run rt t (Some d) opts w
      = (Returned (Some started, None), w', tr) ->
    exists created w1 tr1,
      Create rt (creator d) (ctx (build_conf opts)) d w
        = (Returned (created, None), w1, tr1)
      /\ StartedContainer_CreatedContainer started = created
      /\ StartedContainer_ID started = ID created
      /\ forall client : DockerClient,
           creator_client (creator d) = Some client ->
           exists resp,
             docker_ContainerCreate rt client (ctx (build_conf opts))
               None None None None EmptyString
               (world (Prepare rt (imageSource d) (ctx (build_conf opts)) w))
             = ((resp, None), w1)
             /\ ID created = CreateResponse_ID resp
             /\ StartedContainer_ID started = CreateResponse_ID resp
             /\ (CreateResponse_ID resp <> EmptyString <->
                 ID created <> EmptyString
                 /\ StartedContainer_ID started <> EmptyString).
Proof.
  intros W rt t d opts w w' started tr Hs H.
  unfold Testcontainers_Run in H. cbv zeta in H.
  apply bind_inv in H.
  destruct H as ([created err] & w1 & tr1 & tr2 & HC & H & _).
  destruct err; [discriminate H|].
  apply bind_inv in H.
  destruct H as ([started' err] & w2 & tr3 & tr4 & HS & H & _).
  destruct err; [discriminate H|].
  unfold ret in H. injection H as <- _ _.
  pose proof (Start_package_wraps rt _ Hs _ _ _ _ _ _ HS) as Hw.
  assert (Hid : StartedContainer_ID started' = ID created).
  { unfold StartedContainer_ID; now rewrite Hw. }
  exists created, w1, tr1. repeat split; try assumption.
  intros client Hcl.
  destruct (Create_package_response rt _ client Hcl _ _ _ _ _ _ HC)
    as (resp & Hresp & Hr).
  exists resp. rewrite Hid, Hr. repeat split; tauto.
Qed.

Lemma Run_success_same_ID_witness :
  exists created w1 tr1,
    Create (scripted all_good) (creator nginx_logged)
      (ctx (build_conf [WithContext ctx1])) nginx_logged 0
      = (Returned (created, None), w1, tr1)
    /\ StartedContainer_CreatedContainer logged_started = created
    /\ StartedContainer_ID logged_started = ID created
    /\ forall client : DockerClient,
         creator_client (creator nginx_logged) = Some client ->
         exists resp,
           docker_ContainerCreate (scripted all_good) client
             (ctx (build_conf [WithContext ctx1]))
             None None None None EmptyString
             (world (Prepare (scripted all_good) (imageSource nginx_logged)
                       (ctx (build_conf [WithContext ctx1])) 0))
           = ((resp, None), w1)
           /\ ID created = CreateResponse_ID resp
           /\ StartedContainer_ID logged_started = CreateResponse_ID resp
           /\ (CreateResponse_ID resp <> EmptyString <->
               ID created <> EmptyString
               /\ StartedContainer_ID logged_started <> EmptyString).
Proof.
  refine (Run_success_same_ID nat (scripted all_good) tc_logging nginx_logged
            [WithContext ctx1] 0 3 logged_started _ eq_refl _).
  vm_compute. reflexivity.
Defined.

(** C8 as stated fails, in both of its parts.  With an orchestrator whose
    logger has a handler and a runtime that answers the create call with
    an empty id and no error, [Run] succeeds with an empty id.  And with a
    starter from outside the package that hands back a container of its
    own, [Run] succeeds with an id that is not the id of the container the
    create stage produced. *)
Lemma Run_success_empty_ID :
  (exists started : StartedContainer,
     result (Testcontainers_Run (scripted empty_id) tc_logging
               (Some nginx_logged) [WithContext ctx1] 0)
       = Returned (Some started, None)
     /\ StartedContainer_ID started = EmptyString)
  /\ (exists (created : CreatedContainer) (started : StartedContainer),
        result (Create (scripted double_answers) (creator double_definition)
                  ctx1 double_definition 0)
          = Returned (created, None)
        /\ result (Testcontainers_Run (scripted double_answers) tc_logging
                     (Some double_definition) [WithContext ctx1] 0)
           = Returned (Some started, None)
        /\ ID created = "abc"
        /\ StartedContainer_ID started = "xyz").
Proof.
  split.
  - eexists. split; reflexivity.
  - do 2 eexists. repeat split.
Qed.

(** * Further properties of the package *)

(** ** Options *)

(** X1: [WithExposedPorts] with no port changes nothing; supplying two port
    lists one after the other is supplying their concatenation; and
    [WithExposedPorts] and [WaitingFor] commute, each touching a field the
    other leaves alone. *)
Theorem options_compose :
  forall (c : GenericContainerDefinition) (a b : list nat_Port)
         (wait : wait_Strategy),
    WithExposedPorts [] c = c
    /\ WithExposedPorts b (WithExposedPorts a c) = WithExposedPorts (a ++ b) c
    /\ WaitingFor wait (WithExposedPorts a c)
       = WithExposedPorts a (WaitingFor wait c).
Proof.
  intros c a b wait. split; [|split].
  - destruct c; reflexivity.
  - rewrite !WithExposedPorts_fields; simpl. now rewrite app_assoc.
  - unfold WaitingFor. rewrite !WithExposedPorts_fields; reflexivity.
Qed.

Lemma package_options_starter (os : list PackageOption)
    (c : GenericContainerDefinition) :
  let d := fold_left (fun c opt => opt c) (map package_option os) c in
  starter_base (starter d) = starter_base (starter c)
  /\ starter_waits (starter d)
     = starter_waits (starter c) ++ flat_map option_waits os
  /\ terminator d = terminator c.
Proof.
  revert c; induction os as [|o os IH]; intro c; simpl.
  - rewrite app_nil_r; auto.
  - destruct (IH (package_option o c)) as (Hb & Hw & Ht).
    rewrite Hb, Hw, Ht.
    destruct o as [ports|wait]; simpl.
    + rewrite WithExposedPorts_fields; simpl; auto.
    + rewrite <- app_assoc; auto.
Qed.

(** X2: in a definition built by [NewGenericContainer] from the package's
    options, the starter is the runtime starter of the orchestrator's
    client under one readiness decorator per [WaitingFor] option, in the
    order the options were supplied (the last one outermost); the
    terminator stays nil. *)
Theorem NewGenericContainer_starter_stack :
  forall (t : Testcontainers) (source : ContainerImageSource)
         (os : list PackageOption),
    let d := Testcontainers_NewGenericContainer t source
               (map package_option os) in
    starter_base (starter d) = DockerContainerStarter (tc_client t)
    /\ starter_waits (starter d) = flat_map option_waits os
    /\ terminator d = NilTerminator.
Proof.
  intros t source os. unfold Testcontainers_NewGenericContainer.
  match goal with
  | |- context [fold_left _ _ ?c] =>
      destruct (package_options_starter os c) as (Hb & Hw & Ht)
  end.
  cbv zeta. rewrite Hb, Hw, Ht. repeat split.
Qed.

(** X3: whatever the platform strings and however many there are,
    [FromImage] with platform options keeps the image and ends with the
    same amd64/linux platform; with no option the platform is nil. *)
Theorem FromImage_platform_collapses :
  forall (img : string) (plats : list string),
    FromImage img (map WithImagePlatform plats)
    = {| image := img;
         platform :=
           match plats with
           | [] => None
           | _ :: _ =>
               Some {| Architecture := "amd64"; OS := "linux";
                       OSVersion := EmptyString; OSFeatures := [];
                       Variant := EmptyString |}
           end |}.
Proof.
  intros img plats. unfold FromImage.
  destruct plats as [|p plats]; [reflexivity|].
  simpl. generalize p; clear p.
  induction plats as [|q plats IH]; intro p; simpl; [reflexivity|].
  apply (IH q).
Qed.




(** ** Creation failures *)

Lemma bind_trace {W A B} (m : M W A) (k : A -> M W B) (w : W) :
  trace (bind m k w)
  = trace (m w)
    ++ match result (m w) with
       | Returned a => trace (k a (world (m w)))
       | Panicked => []
       end.
Proof.
  unfold bind, trace, result, world.
  destruct (m w) as [[[a|] w1] t1]; simpl.
  - destruct (k a w1) as [[r w2] t2]; reflexivity.
  - now rewrite app_nil_r.
Qed.

(** [Prepare] sends nothing to the runtime. *)
Lemma Prepare_no_request {W} (rt : Runtime W) (src : ContainerImageSource)
    (c : context_Context) :
  emits (fun e => is_ClientContainerCreate e = false
                  /\ is_ClientContainerStart e = false)
    (Prepare rt src c).
Proof.
  unfold Prepare. destruct src; emits_walk; split; reflexivity.
Qed.

Lemma filter_none {A} (f : A -> bool) (l : list A) :
  Forall (fun x => f x = false) l -> filter f l = [].
Proof.
  induction 1 as [|x l Hx _ IH]; simpl; [reflexivity|].
  now rewrite Hx.
Qed.

Lemma ContainerImageCreator_Prepare_error {W} (rt : Runtime W)
    (client : DockerClient) (c : context_Context)
    (d : GenericContainerDefinition) (w w1 : W) (img e : string)
    (tr1 : list Event) :
  Prepare rt (imageSource d) c w = (Returned (img, Some e), w1, tr1) ->
  ContainerImageCreator_Create rt client c d w
  = (Returned (zero_CreatedContainer, Some e), w1, tr1).
Proof.
  intro H. unfold ContainerImageCreator_Create.
  rewrite (bind_Returned _ _ _ _ _ _ H). cbn. now rewrite app_nil_r.
Qed.

(** X5: on a definition built by [NewGenericContainer] from the package's
    options, by an orchestrator whose logger has a handler, when the image
    source cannot resolve its reference [Run] returns the nil handle with
    the source's error, having logged the failure and sent nothing to the
    runtime: no create and no start request. *)
Theorem Run_Prepare_error :
  forall W (rt : Runtime W) (t : Testcontainers) (h : slog_Handler)
         (source : ContainerImageSource) (os : list PackageOption)
         (opts : list ExecutionOption) (w w1 : W) (img e : string)
         (tr1 : list Event),
    Logger_handler (tc_logger t) = Some h ->
    Prepare rt source (ctx (build_conf opts)) w
      = (Returned (img, Some e), w1, tr1) ->
    let d := Testcontainers_NewGenericContainer t source
               (map package_option os) in
    let r := Testcontainers_Run rt t (Some d) opts w in
    r = (Returned (None, Some e), w1,
         CallCreate (creator d) (ctx (build_conf opts)) d
         :: Log (tc_logger t) LevelInfo "Creating container"
         :: CallCreate (ContainerImageCreator (tc_client t))
              (ctx (build_conf opts)) d
         :: tr1
         ++ [Log (tc_logger t) LevelError "Failed to create container"])
    /\ filter is_ClientContainerCreate (trace r) = []
    /\ filter is_ClientContainerStart (trace r) = [].
Proof.
  intros W rt t h source os opts w w1 img e tr1 Hh H d r.
  destruct (NewGenericContainer_package t source os) as (Hi & _ & Hc & _).
  fold d in Hi, Hc.
  assert (Hr : r = (Returned (None, Some e), w1,
                    CallCreate (creator d) (ctx (build_conf opts)) d
                    :: Log (tc_logger t) LevelInfo "Creating container"
                    :: CallCreate (ContainerImageCreator (tc_client t))
                         (ctx (build_conf opts)) d
                    :: tr1
                    ++ [Log (tc_logger t) LevelError
                          "Failed to create container"])).
  { unfold r, Testcontainers_Run. cbv zeta. rewrite Hc.
    rewrite <- Hi in H.
    pose proof (ContainerImageCreator_Prepare_error rt (tc_client t) _ d
                  _ _ _ _ _ H) as HP.
    assert (HI : Create rt (ContainerImageCreator (tc_client t))
                   (ctx (build_conf opts)) d w
                 = (Returned (zero_CreatedContainer, Some e), w1,
                    CallCreate (ContainerImageCreator (tc_client t))
                      (ctx (build_conf opts)) d :: tr1)).
    { cbn [Create]. rewrite bind_emit, HP. reflexivity. }
    pose proof (Logging_Create_returns rt _ (tc_logger t) h _ _ _ _ _ _ _
                  Hh HI) as HC.
    cbn [app] in HC.
    rewrite (bind_Returned _ _ _ _ _ _ HC). cbn.
    now rewrite app_nil_r. }
  split; [exact Hr|].
  rewrite Hr. cbn [trace snd].
  pose proof (Prepare_no_request rt source (ctx (build_conf opts)) w) as HF.
  rewrite H in HF. cbn [trace snd] in HF.
  split.
  - cbn [filter is_ClientContainerCreate]. rewrite filter_app.
    cbn [filter is_ClientContainerCreate]. rewrite app_nil_r.
    apply filter_none. eapply Forall_impl; [|exact HF]. now intros a [].
  - cbn [filter is_ClientContainerStart]. rewrite filter_app.
    cbn [filter is_ClientContainerStart]. rewrite app_nil_r.
    apply filter_none. eapply Forall_impl; [|exact HF]. now intros a [].
Qed.

Lemma Run_Prepare_error_witness :
  result (Testcontainers_Run (scripted prepare_fails) tc_logging
            (Some foreign_definition) [WithContext ctx1] 0)
    = Returned (None, Some "no such image")
  /\ filter is_ClientContainerCreate
       (trace (Testcontainers_Run (scripted prepare_fails) tc_logging
                 (Some foreign_definition) [WithContext ctx1] 0)) = [].
Proof.
  destruct (Run_Prepare_error nat (scripted prepare_fails) tc_logging
              (Handler 1) (ImageSource_Foreign "FromDockerfile")
              [OptExposedPorts ["80/tcp"]; OptWaitingFor ForLog_Server_ready]
              [WithContext ctx1] 0 1 EmptyString "no such image"
              [CallPrepare (ImageSource_Foreign "FromDockerfile") ctx1]
              eq_refl eq_refl)
    as (Hr & Hc & _).
  split; [exact (f_equal result Hr) | exact Hc].
Defined.

(** X6: when [Prepare] succeeds and the runtime answers the create call
    with an error, the base creator returns the zero [CreatedContainer]
    (empty id, no definition) with the runtime's error unchanged, whatever
    response came with the error. *)
Theorem ContainerImageCreator_runtime_error :
  forall W (rt : Runtime W) (client : DockerClient) (c : context_Context)
         (d : GenericContainerDefinition) (w w1 w2 : W) (img e : string)
         (resp : container_CreateResponse) (tr1 : list Event),
    Prepare rt (imageSource d) c w = (Returned (img, None), w1, tr1) ->
    docker_ContainerCreate rt client c None None None None EmptyString w1
      = ((resp, Some e), w2) ->
    Create rt (ContainerImageCreator client) c d w
    = (Returned (zero_CreatedContainer, Some e), w2,
       CallCreate (ContainerImageCreator client) c d
       :: tr1
       ++ [ClientContainerCreate client c None None None None EmptyString]).
Proof.
  intros W rt client c d w w1 w2 img e resp tr1 HP HC.
  cbn [Create]. rewrite bind_emit.
  unfold ContainerImageCreator_Create.
  rewrite (bind_Returned _ _ _ _ _ _ HP).
  unfold client_ContainerCreate, extern, bind. rewrite HC. reflexivity.
Qed.

Lemma ContainerImageCreator_runtime_error_witness :
  Create (scripted create_fails) default_creator ctx1 nginx_definition 0
  = (Returned (zero_CreatedContainer, Some "create refused"), 1,
     [CallCreate default_creator ctx1 nginx_definition;
      CallPrepare (imageSource nginx_definition) ctx1;
      ClientContainerCreate (tc_client tc) ctx1 None None None None
        EmptyString]).
Proof.
  apply (ContainerImageCreator_runtime_error nat (scripted create_fails)
           (tc_client tc) ctx1 nginx_definition 0 0 1 "nginx"
           "create refused"
           {| CreateResponse_ID := EmptyString;
              CreateResponse_Warnings := [] |}
           [CallPrepare (imageSource nginx_definition) ctx1]);
    reflexivity.
Defined.

(** X7: through any number of logging decorators over the base creator, a
    [Create] that returns an error returns the zero [CreatedContainer]
    with it: a failed creation never hands out an id or a definition. *)
Theorem package_creator_error_is_zero :
  forall W (rt : Runtime W) (cr : ContainerCreator) (c : context_Context)
         (d : GenericContainerDefinition) (w w1 : W)
         (created : CreatedContainer) (e : string) (tr : list Event),
    package_creator cr = true ->
    Create rt cr c d w = (Returned (created, Some e), w1, tr) ->
    created = zero_CreatedContainer.
Proof.
  intros W rt cr c d.
  induction cr as [|client|inner IH logger|name]; simpl;
    intros w w1 created e tr Hp H; try discriminate.
  - apply bind_inv in H. destruct H as ([] & wa & ta & tb & _ & H & _).
    unfold ContainerImageCreator_Create in H.
    apply bind_inv in H.
    destruct H as ([img err] & wb & tc' & td & _ & H & _).
    destruct err; [unfold ret in H; now injection H as <- _ _ _|].
    apply bind_inv in H.
    destruct H as ([resp err] & wc & te & tf & _ & H & _).
    destruct err; unfold ret in H; [now injection H as <- _ _ _|].
    discriminate H.
  - apply bind_inv in H. destruct H as ([] & wa & ta & tb & Ha & H & _).
    unfold emit in Ha. injection Ha as <- _.
    unfold LoggingContainerCreator_Create in H.
    apply bind_inv in H. destruct H as ([] & wb & tc' & td & Hb & H & _).
    apply logger_Info_returns in Hb. destruct Hb as [-> _].
    apply bind_inv in H.
    destruct H as ([create err] & wc & te & tf & Hin & H & _).
    destruct err as [e'|].
    + apply bind_inv in H. destruct H as ([] & ? & ? & ? & _ & H & _).
      unfold ret in H. injection H as <- <- _ _.
      exact (IH _ _ _ _ _ Hp Hin).
    + apply bind_inv in H. destruct H as ([] & ? & ? & ? & _ & H & _).
      discriminate H.
Qed.

Lemma package_creator_error_is_zero_witness :
  exists created : CreatedContainer,
    result (Create (scripted create_fails) (creator nginx_logged) ctx1
              nginx_logged 0)
      = Returned (created, Some "create refused")
    /\ created = zero_CreatedContainer.
Proof.
  eexists. split; [reflexivity|].
  refine (package_creator_error_is_zero nat (scripted create_fails)
            (creator nginx_logged) ctx1 nginx_logged 0 1
            zero_CreatedContainer "create refused" _ eq_refl _).
  vm_compute. reflexivity.
Defined.

Lemma filter_create_Prepare {W} (rt : Runtime W) (src : ContainerImageSource)
    (c : context_Context) (w : W) :
  filter is_ClientContainerCreate (trace (Prepare rt src c w)) = [].
Proof.
  apply filter_none.
  eapply Forall_impl; [|apply (Prepare_no_request rt src c w)].
  now intros a [].
Qed.

(** X8: one call of [Create], on any creator and however many logging
    decorators it is wrapped in, sends the runtime at most one create
    request. *)
Theorem Create_at_most_one_request :
  forall W (rt : Runtime W) (cr : ContainerCreator) (c : context_Context)
         (d : GenericContainerDefinition) (w : W),
    length (filter is_ClientContainerCreate (trace (Create rt cr c d w))) <= 1.
Proof.
  intros W rt cr c d.
  induction cr as [|client|inner IH logger|name]; intro w; cbn [Create].
  - cbn. lia.
  - rewrite bind_emit. cbn [trace snd filter is_ClientContainerCreate].
    unfold ContainerImageCreator_Create. rewrite bind_trace, filter_app.
    rewrite filter_create_Prepare. cbn [app].
    destruct (Prepare rt (imageSource d) c w) as [[[[img err]|] w1] t1];
      cbn [result world fst snd]; [|cbn; lia].
    destruct err; [cbn; lia|].
    unfold client_ContainerCreate, extern, bind.
    destruct (docker_ContainerCreate rt client c None None None None
                EmptyString w1) as [[resp err] w2].
    destruct err; cbn; lia.
  - rewrite bind_emit. cbn [trace snd filter is_ClientContainerCreate].
    unfold LoggingContainerCreator_Create, logger_Info, logger_Error.
    destruct (Logger_handler logger) as [h|]; [|cbn; lia].
    rewrite bind_emit. cbn [trace snd filter is_ClientContainerCreate].
    rewrite bind_trace, filter_app, length_app.
    specialize (IH w).
    destruct (Create rt inner c d w) as [[[[create err]|] w1] t1];
      cbn [result world trace fst snd] in *; [|cbn; lia].
    destruct err; cbn; lia.
  - unfold extern. destruct (foreign_Create rt name c d w). cbn. lia.
Qed.

(** ** Stacks of readiness decorators *)

Lemma waits_in_trace_app (t1 t2 : list Event) :
  waits_in_trace (t1 ++ t2) = waits_in_trace t1 ++ waits_in_trace t2.
Proof. apply flat_map_app. Qed.

(** X9: whenever the starter under the readiness decorators is the runtime
    starter, a call of [Start] on the stack sends the runtime exactly one
    start request, for the id of the container it was given and with the
    zero start options, however the call ends. *)
Theorem Start_one_start_request :
  forall W (rt : Runtime W) (st : ContainerStarter) (client : DockerClient)
         (c : context_Context) (container : CreatedContainer) (w : W),
    starter_base st = DockerContainerStarter client ->
    filter is_ClientContainerStart (trace (Start rt st c container w))
    = [ClientContainerStart client c (ID container) zero_StartOptions].
Proof.
  intros W rt st client c container w.
  induction st as [|client'|inner IH wait|name]; cbn [starter_base];
    intro Hb; try discriminate.
  - injection Hb as ->. cbn [Start]. rewrite bind_emit.
    unfold DockerContainerStarter_Start, client_ContainerStart, extern, bind.
    destruct (docker_ContainerStart rt client c (ID container)
                zero_StartOptions w) as [err w1].
    destruct err; reflexivity.
  - specialize (IH Hb). cbn [Start]. rewrite bind_emit.
    cbn [trace snd filter is_ClientContainerStart].
    unfold AwaitingContainerStarter_Start.
    rewrite bind_trace, filter_app, IH.
    destruct (Start rt inner c container w) as [[[[started err]|] w1] t1];
      cbn [result world fst snd]; [|reflexivity].
    destruct err; [reflexivity|].
    unfold wait_WaitUntilReady. destruct wait as [|name]; [reflexivity|].
    unfold extern, bind.
    destruct (strategy_WaitUntilReady rt name c
                {| Adapted_container := started |} w1) as [err w2].
    destruct err; reflexivity.
Qed.

Lemma Start_one_start_request_witness :
  filter is_ClientContainerStart
    (trace (Start (scripted wait_times_out) (starter nginx_definition) ctx1
              nginx_created 1))
  = [ClientContainerStart (tc_client tc) ctx1 "abc" zero_StartOptions].
Proof.
  apply (Start_one_start_request nat (scripted wait_times_out)
           (starter nginx_definition) (tc_client tc) ctx1 nginx_created 1).
  reflexivity.
Defined.

(** X10: an error of the starter under the readiness decorators crosses
    the whole stack unchanged, with what that starter returned and the
    world it left, and none of the decorators waits. *)
Theorem base_error_crosses_stack :
  forall W (rt : Runtime W) (st : ContainerStarter) (c : context_Context)
         (container : CreatedContainer) (w w1 : W)
         (started : StartedContainer) (e : string) (tr0 : list Event),
    Start rt (starter_base st) c container w
      = (Returned (started, Some e), w1, tr0) ->
    result (Start rt st c container w) = Returned (started, Some e)
    /\ world (Start rt st c container w) = w1
    /\ waits_in_trace (trace (Start rt st c container w))
       = waits_in_trace tr0.
Proof.
  intros W rt st c container w w1 started e tr0.
  induction st as [|client|inner IH wait|name]; cbn [starter_base];
    intro H; try (rewrite H; repeat split; reflexivity).
  destruct (IH H) as (Hr & Hw & Ht).
  destruct (Start rt inner c container w) as [[r' w'] t'] eqn:E.
  cbn [result world trace fst snd] in Hr, Hw, Ht. subst r' w'.
  cbn [Start]. rewrite bind_emit.
  unfold AwaitingContainerStarter_Start.
  rewrite (bind_Returned _ _ _ _ _ _ E).
  cbn. rewrite app_nil_r. repeat split. exact Ht.
Qed.

Lemma base_error_crosses_stack_witness :
  result (Start (scripted start_fails) (starter nginx_definition) ctx1
            nginx_created 1)
    = Returned (zero_StartedContainer, Some "start refused")
  /\ waits_in_trace
       (trace (Start (scripted start_fails) (starter nginx_definition) ctx1
                 nginx_created 1)) = [].
Proof.
  destruct (base_error_crosses_stack nat (scripted start_fails)
              (starter nginx_definition) ctx1 nginx_created 1 2
              zero_StartedContainer "start refused"
              [CallStart default_starter ctx1 nginx_created;
               ClientContainerStart (tc_client tc) ctx1 "abc"
                 zero_StartOptions]
              eq_refl) as (Hr & _ & Ht).
  split; [exact Hr | exact Ht].
Defined.

Lemma wait_all_snoc {W} (rt : Runtime W) (ws : list wait_Strategy)
    (s : wait_Strategy) (c : context_Context) (target : Adapted) (w : W) :
  wait_all rt (ws ++ [s]) c target w
  = (err <- wait_all rt ws c target ;;
     match err with
     | Some _ => ret err
     | None => wait_WaitUntilReady rt s c target
     end) w.
Proof.
  revert w; induction ws as [|x ws IH]; intro w.
  - cbn [app wait_all]. unfold bind, ret.
    destruct (wait_WaitUntilReady rt s c target w) as [[[err|] w1] t1];
      [|reflexivity].
    destruct err; cbn; now rewrite app_nil_r.
  - cbn [app wait_all].
    rewrite (bind_trace_eq (wait_WaitUntilReady rt x c target)).
    rewrite (bind_trace_eq
               (err <- wait_WaitUntilReady rt x c target ;;
                match err with
                | Some _ => ret err
                | None => wait_all rt ws c target
                end)).
    rewrite (bind_trace_eq (wait_WaitUntilReady rt x c target)).
    destruct (wait_WaitUntilReady rt x c target w) as [[[err|] w1] t1];
      [|reflexivity].
    destruct err as [e|]; [cbn; now rewrite !app_nil_r|].
    cbn iota beta. rewrite IH.
    rewrite (bind_trace_eq (wait_all rt ws c target)).
    destruct (wait_all rt ws c target w1) as [[[err|] w2] t2];
      [|reflexivity].
    destruct err as [e|]; [cbn; now rewrite !app_nil_r|].
    cbn iota beta.
    destruct (wait_WaitUntilReady rt s c target w2) as [[r w3] t3].
    now rewrite app_assoc.
Qed.

Lemma wait_all_snoc_cases {W} (rt : Runtime W) (ws : list wait_Strategy)
    (s : wait_Strategy) (c : context_Context) (target : Adapted) (w : W) :
  wait_all rt (ws ++ [s]) c target w
  = match wait_all rt ws c target w with
    | (Returned None, w1, t1) =>
        match wait_WaitUntilReady rt s c target w1 with
        | (r, w2, t2) => (r, w2, t1 ++ t2)
        end
    | (Returned (Some e), w1, t1) => (Returned (Some e), w1, t1)
    | (Panicked, w1, t1) => (Panicked, w1, t1)
    end.
Proof.
  rewrite wait_all_snoc, bind_trace_eq.
  destruct (wait_all rt ws c target w) as [[[err|] w1] t1]; [|reflexivity].
  destruct err as [e|]; [cbn; now rewrite app_nil_r|reflexivity].
Qed.

Lemma Start_Awaiting_cases {W} (rt : Runtime W) (inner : ContainerStarter)
    (wait : wait_Strategy) (c : context_Context)
    (container : CreatedContainer) (w : W) :
  Start rt (AwaitingContainerStarter inner wait) c container w
  = match Start rt inner c container w with
    | (Returned (started, None), w1, t1) =>
        match wait_WaitUntilReady rt wait c
                {| Adapted_container := started |} w1 with
        | (Returned err, w2, t2) =>
            (Returned (started, err), w2,
             CallStart (AwaitingContainerStarter inner wait) c container
             :: t1 ++ t2)
        | (Panicked, w2, t2) =>
            (Panicked, w2,
             CallStart (AwaitingContainerStarter inner wait) c container
             :: t1 ++ t2)
        end
    | (Returned (started, Some e), w1, t1) =>
        (Returned (started, Some e), w1,
         CallStart (AwaitingContainerStarter inner wait) c container :: t1)
    | (Panicked, w1, t1) =>
        (Panicked, w1,
         CallStart (AwaitingContainerStarter inner wait) c container :: t1)
    end.
Proof.
  cbn [Start]. rewrite bind_emit.
  unfold AwaitingContainerStarter_Start. rewrite bind_trace_eq.
  destruct (Start rt inner c container w) as [[[[started err]|] w1] t1];
    [|reflexivity].
  destruct err as [e|]; [cbn; now rewrite app_nil_r|].
  rewrite bind_trace_eq.
  destruct (wait_WaitUntilReady rt wait c
              {| Adapted_container := started |} w1) as [[[err|] w2] t2];
    [|reflexivity].
  destruct err; cbn; now rewrite app_nil_r.
Qed.

Lemma base_then_waits_cases {W} (rt : Runtime W) (st : ContainerStarter)
    (c : context_Context) (container : CreatedContainer) (w : W) :
  base_then_waits rt st c container w
  = match Start rt (starter_base st) c container w with
    | (Returned (started, None), w1, t1) =>
        match wait_all rt (starter_waits st) c
                {| Adapted_container := started |} w1 with
        | (Returned err, w2, t2) =>
            (Returned (started, err), w2,
             layer_calls st c container ++ t1 ++ t2)
        | (Panicked, w2, t2) =>
            (Panicked, w2, layer_calls st c container ++ t1 ++ t2)
        end
    | (Returned (started, Some e), w1, t1) =>
        (Returned (started, Some e), w1, layer_calls st c container ++ t1)
    | (Panicked, w1, t1) =>
        (Panicked, w1, layer_calls st c container ++ t1)
    end.
Proof.
  unfold base_then_waits. rewrite bind_trace_eq.
  destruct (Start rt (starter_base st) c container w)
    as [[[[started err]|] w1] t1]; [|reflexivity].
  destruct err as [e|]; [cbn; now rewrite app_nil_r|].
  rewrite bind_trace_eq.
  destruct (wait_all rt (starter_waits st) c
              {| Adapted_container := started |} w1) as [[[err|] w2] t2];
    [|reflexivity].
  cbn. now rewrite app_nil_r.
Qed.

(** X11: [Start] on a stack of readiness decorators is, in result, world
    and trace, the start of the starter under the decorators followed, if
    that succeeded, by the waits of the stack's strategies from the
    innermost decorator outwards, each on the adapter of the started
    container, up to the first strategy that returns an error: no
    strategy after it is called, and its error comes back with the started
    container.  A nil strategy reached in that order panics. *)
Theorem Start_is_base_then_waits :
  forall W (rt : Runtime W) (st : ContainerStarter) (c : context_Context)
         (container : CreatedContainer) (w : W),
    Start rt st c container w = base_then_waits rt st c container w.
Proof.
  intros W rt st c container w.
  induction st as [|client|inner IH wait|name].
  1,2,4:
    rewrite base_then_waits_cases;
    cbn [starter_base starter_waits layer_calls wait_all app];
    match goal with
    | |- ?x = _ => destruct x as [[[[started err]|] w1] t1]
    end;
    [destruct err; cbn; now rewrite ?app_nil_r | reflexivity].
  rewrite Start_Awaiting_cases, IH, !base_then_waits_cases.
  cbn [starter_base starter_waits layer_calls].
  destruct (Start rt (starter_base inner) c container w)
    as [[[[started err]|] w1] t1]; [|reflexivity].
  destruct err as [e|]; [reflexivity|].
  rewrite wait_all_snoc_cases.
  destruct (wait_all rt (starter_waits inner) c
              {| Adapted_container := started |} w1) as [[[err|] w2] t2];
    [|reflexivity].
  destruct err as [e|]; [reflexivity|].
  destruct (wait_WaitUntilReady rt wait c
              {| Adapted_container := started |} w2) as [[[err|] w3] t3];
    cbn; rewrite <- !app_assoc; reflexivity.
Qed.

(** The first of two strategies times out: the second one is not called. *)
Example first_failure_stops_waiting :
  Start (scripted wait_times_out) two_waits ctx1 nginx_created 1
  = (Returned (nginx_started, Some "timeout"), 3,
     [CallStart two_waits ctx1 nginx_created;
      CallStart
        (AwaitingContainerStarter default_starter (Strategy "ForListeningPort"))
        ctx1 nginx_created;
      CallStart default_starter ctx1 nginx_created;
      ClientContainerStart (tc_client tc) ctx1 "abc" zero_StartOptions;
      WaitUntilReady "ForListeningPort" ctx1
        {| Adapted_container := nginx_started |}]).
Proof. reflexivity. Qed.

(** X12: when the inner [Start] succeeds, the readiness decorator calls
    its strategy once, after everything the inner call did, on an adapter
    of the very container the inner call returned, and returns that
    container with whatever the strategy answered, nil or an error. *)
Theorem AwaitingContainerStarter_waits_on_started :
  forall W (rt : Runtime W) (inner : ContainerStarter) (name : string)
         (c : context_Context) (container : CreatedContainer) (w w1 w2 : W)
         (started : StartedContainer) (err : error) (tr1 : list Event),
    Start rt inner c container w = (Returned (started, None), w1, tr1) ->
    strategy_WaitUntilReady rt name c {| Adapted_container := started |} w1
      = (err, w2) ->
    Start rt (AwaitingContainerStarter inner (Strategy name)) c container w
    = (Returned (started, err), w2,
       CallStart (AwaitingContainerStarter inner (Strategy name)) c container
       :: tr1
       ++ [WaitUntilReady name c {| Adapted_container := started |}]).
Proof.
  intros W rt inner name c container w w1 w2 started err tr1 Hs Hw.
  cbn [Start]. rewrite bind_emit.
  unfold AwaitingContainerStarter_Start.
  rewrite (bind_Returned _ _ _ _ _ _ Hs).
  unfold wait_WaitUntilReady, extern, bind. rewrite Hw.
  destruct err; reflexivity.
Qed.

Lemma AwaitingContainerStarter_waits_on_started_witness :
  Start (scripted all_good) (starter nginx_definition) ctx1 nginx_created 1
  = (Returned (nginx_started, None), 3,
     [CallStart (starter nginx_definition) ctx1 nginx_created;
      CallStart default_starter ctx1 nginx_created;
      ClientContainerStart (tc_client tc) ctx1 "abc" zero_StartOptions;
      WaitUntilReady "ForLog(Server ready)" ctx1
        {| Adapted_container := nginx_started |}]).
Proof.
  apply (AwaitingContainerStarter_waits_on_started nat (scripted all_good)
           default_starter "ForLog(Server ready)" ctx1 nginx_created 1 2 3
           nginx_started None
           [CallStart default_starter ctx1 nginx_created;
            ClientContainerStart (tc_client tc) ctx1 "abc"
              zero_StartOptions]);
    reflexivity.
Defined.

(** ** Run *)

(** X13: when [Create] returns without error, [Run] calls [Start] on the
    definition's starter with the container [Create] returned, in the
    world [Create] left, and nothing else: its trace is the trace of
    [Create] followed by the trace of [Start].  It returns the started
    container when [Start] returned no error, and otherwise the nil handle
    with the error of [Start]: what [Start] returned beside the error is
    dropped and nothing is undone. *)
Theorem Run_sequences_Create_then_Start :
  forall W (rt : Runtime W) (t : Testcontainers)
         (d : GenericContainerDefinition) (opts : list ExecutionOption)
         (w w1 w2 : W) (created : CreatedContainer)
         (started : StartedContainer) (err : error) (tr1 tr2 : list Event),
    Create rt (creator d) (ctx (build_conf opts)) d w
      = (Returned (created, None), w1, tr1) ->
    Start rt (starter d) (ctx (build_conf opts)) created w1
      = (Returned (started, err), w2, tr2) ->
    Testcontainers_Run rt t (Some d) opts w
    = (Returned (match err with
                 | Some _ => None
                 | None => Some started
                 end, err), w2, tr1 ++ tr2).
Proof.
  intros W rt t d opts w w1 w2 created started err tr1 tr2 Hc Hs.
  unfold Testcontainers_Run. cbv zeta.
  rewrite (bind_Returned _ _ _ _ _ _ Hc).
  rewrite (bind_Returned _ _ _ _ _ _ Hs).
  destruct err; cbn; now rewrite app_nil_r.
Qed.

Lemma Run_sequences_Create_then_Start_witness :
  result (Testcontainers_Run (scripted start_fails) tc_logging
            (Some nginx_logged) [WithContext ctx1] 0)
    = Returned (None, Some "start refused")
  /\ result (Testcontainers_Run (scripted all_good) tc_logging
               (Some nginx_logged) [WithContext ctx1] 0)
     = Returned (Some logged_started, None).
Proof.
  split.
  - refine (f_equal result
      (Run_sequences_Create_then_Start nat (scripted start_fails) tc_logging
         nginx_logged [WithContext ctx1] 0 1 2 logged_created
         zero_StartedContainer (Some "start refused") _ _ _ _));
      vm_compute; reflexivity.
  - refine (f_equal result
      (Run_sequences_Create_then_Start nat (scripted all_good) tc_logging
         nginx_logged [WithContext ctx1] 0 1 3 logged_created
         logged_started None _ _ _ _));
      vm_compute; reflexivity.
Defined.

Lemma bind_Panicked {W A B} (m : M W A) (k : A -> M W B)
    (w w1 : W) (t1 : list Event) :
  m w = (Panicked, w1, t1) -> bind m k w = (Panicked, w1, t1).
Proof. intro H; unfold bind; now rewrite H. Qed.

(** X14: a readiness decorator with a nil strategy makes [Run] panic, and
    only after the container was created and started: the effects of
    [Create] and of the inner [Start] are there, and no handle comes
    back. *)
Theorem Run_nil_strategy_panics :
  forall W (rt : Runtime W) (t : Testcontainers)
         (d : GenericContainerDefinition) (opts : list ExecutionOption)
         (inner : ContainerStarter) (w w1 w2 : W)
         (created : CreatedContainer) (started : StartedContainer)
         (tr1 tr2 : list Event),
    starter d = AwaitingContainerStarter inner NilStrategy ->
    Create rt (creator d) (ctx (build_conf opts)) d w
      = (Returned (created, None), w1, tr1) ->
    Start rt inner (ctx (build_conf opts)) created w1
      = (Returned (started, None), w2, tr2) ->
    Testcontainers_Run rt t (Some d) opts w
    = (Panicked, w2,
       tr1 ++ CallStart (starter d) (ctx (build_conf opts)) created :: tr2).
Proof.
  intros W rt t d opts inner w w1 w2 created started tr1 tr2 Hst Hc Hs.
  assert (HS : Start rt (starter d) (ctx (build_conf opts)) created w1
               = (Panicked, w2,
                  CallStart (starter d) (ctx (build_conf opts)) created
                  :: tr2)).
  { rewrite Hst. cbn [Start]. rewrite bind_emit.
    unfold AwaitingContainerStarter_Start.
    rewrite (bind_Returned _ _ _ _ _ _ Hs). cbn. now rewrite app_nil_r. }
  unfold Testcontainers_Run. cbv zeta.
  rewrite (bind_Returned _ _ _ _ _ _ Hc).
  rewrite (bind_Panicked _ _ _ _ _ HS). reflexivity.
Qed.

Lemma Run_nil_strategy_panics_witness :
  Testcontainers_Run (scripted all_good) tc_logging (Some nil_wait_definition) [] 0
  = (Panicked, 2,
     [CallCreate (creator nil_wait_definition) context_Background
        nil_wait_definition;
      Log working_logger LevelInfo "Creating container";
      CallCreate default_creator context_Background nil_wait_definition;
      CallPrepare (imageSource nil_wait_definition) context_Background;
      ClientContainerCreate (tc_client tc) context_Background
        None None None None EmptyString;
      Log working_logger LevelInfo "Created container";
      CallStart (starter nil_wait_definition) context_Background
        {| ID := "abc"; definition := nil_wait_definition |};
      CallStart default_starter context_Background
        {| ID := "abc"; definition := nil_wait_definition |};
      ClientContainerStart (tc_client tc) context_Background "abc"
        zero_StartOptions]).
Proof.
  refine (Run_nil_strategy_panics nat (scripted all_good) tc_logging
            nil_wait_definition [] default_starter 0 1 2
            {| ID := "abc"; definition := nil_wait_definition |}
            {| StartedContainer_CreatedContainer :=
                 {| ID := "abc"; definition := nil_wait_definition |} |}
            _ _ eq_refl eq_refl eq_refl).
Defined.

(** X15: [Run] on a nil definition, or on one whose creator is nil (the
    zero definition, say), panics before anything is called: the world is
    untouched and the trace empty. *)
Theorem Run_nil_definition_panics :
  forall W (rt : Runtime W) (t : Testcontainers)
         (opts : list ExecutionOption) (w : W),
    Testcontainers_Run rt t None opts w = (Panicked, w, [])
    /\ Testcontainers_Run rt t (Some zero_GenericContainerDefinition) opts w
       = (Panicked, w, [])
    /\ forall (source : ContainerImageSource) (ports : list nat_Port)
              (st : ContainerStarter) (term : ContainerTerminator),
         Testcontainers_Run rt t
           (Some {| imageSource := source; exposedPorts := ports;
                    creator := NilCreator; starter := st;
                    terminator := term |}) opts w
         = (Panicked, w, []).
Proof.
  intros; repeat split.
Qed.

Lemma Create_context {W} (rt : Runtime W) (cr : ContainerCreator)
    (c : context_Context) (d : GenericContainerDefinition) :
  emits (carries_context c) (Create rt cr c d).
Proof.
  induction cr as [|client|inner IH logger|name]; cbn [Create].
  - apply emits_panic.
  - unfold ContainerImageCreator_Create, Prepare, client_ContainerCreate.
    emits_walk; intros c' Hc; simpl in Hc; congruence.
  - unfold LoggingContainerCreator_Create.
    apply emits_bind; [apply emits_emit; intros c' Hc; simpl in Hc; congruence|].
    intros _.
    apply emits_bind;
      [apply emits_logger_Info; intros c' Hc; simpl in Hc; congruence|].
    intros _. apply emits_bind; [exact IH|].
    emits_walk; intros c' Hc; simpl in Hc; congruence.
  - apply emits_extern; intros c' Hc; simpl in Hc; congruence.
Qed.

Lemma Start_context {W} (rt : Runtime W) (st : ContainerStarter)
    (c : context_Context) (container : CreatedContainer) :
  emits (carries_context c) (Start rt st c container).
Proof.
  induction st as [|client|inner IH wait|name]; cbn [Start].
  - apply emits_panic.
  - unfold DockerContainerStarter_Start, client_ContainerStart.
    emits_walk; intros c' Hc; simpl in Hc; congruence.
  - unfold AwaitingContainerStarter_Start, wait_WaitUntilReady.
    apply emits_bind; [apply emits_emit; intros c' Hc; simpl in Hc; congruence|].
    intros _. apply emits_bind; [exact IH|].
    emits_walk; intros c' Hc; simpl in Hc; congruence.
  - apply emits_extern; intros c' Hc; simpl in Hc; congruence.
Qed.

(** X16: every call [Run] makes or causes, on whatever creators, starters,
    image source and strategies, through every decorator, is made with the
    one context [Run] built from its options. *)
Theorem Run_threads_context :
  forall W (rt : Runtime W) (t : Testcontainers)
         (d : GenericContainerDefinition) (opts : list ExecutionOption)
         (w : W),
    Forall (fun e => forall c' : context_Context,
                       event_context e = Some c' ->
                       c' = ctx (build_conf opts))
      (trace (Testcontainers_Run rt t (Some d) opts w)).
Proof.
  intros W rt t d opts w.
  assert (E : emits (carries_context (ctx (build_conf opts)))
                (Testcontainers_Run rt t (Some d) opts)).
  { unfold Testcontainers_Run. cbv zeta.
    apply emits_bind; [apply Create_context|].
    intros [created err]. destruct err; [apply emits_ret|].
    apply emits_bind; [apply Start_context|].
    intros [started err]. destruct err; apply emits_ret. }
  exact (E w).
Qed.

Lemma Start_client {W} (rt : Runtime W) (st : ContainerStarter)
    (cl : DockerClient) (c : context_Context) (container : CreatedContainer) :
  starter_base st = DockerContainerStarter cl ->
  emits (goes_to_client cl) (Start rt st c container).
Proof.
  induction st as [|client|inner IH wait|name]; cbn [Start starter_base];
    intro Hb; try discriminate.
  - injection Hb as ->.
    unfold DockerContainerStarter_Start, client_ContainerStart.
    emits_walk; intros c' Hc; simpl in Hc; congruence.
  - unfold AwaitingContainerStarter_Start, wait_WaitUntilReady.
    apply emits_bind; [apply emits_emit; intros c' Hc; simpl in Hc; congruence|].
    intros _. apply emits_bind; [exact (IH Hb)|].
    emits_walk; intros c' Hc; simpl in Hc; congruence.
Qed.

Lemma NewGenericContainer_starter_base (t : Testcontainers)
    (source : ContainerImageSource) (os : list PackageOption) :
  starter_base
    (starter (Testcontainers_NewGenericContainer t source
                (map package_option os)))
  = DockerContainerStarter (tc_client t).
Proof.
  unfold Testcontainers_NewGenericContainer.
  match goal with
  | |- context [fold_left _ _ ?c] =>
      destruct (package_options_starter os c) as (Hb & _ & _)
  end.
  cbv zeta in Hb. rewrite Hb. reflexivity.
Qed.

(** X17: the runtime client that serves a [Run] is the client of the
    orchestrator that built the definition, not of the one that runs it:
    on a definition built by [t] from the package's options, every request
    of a [Run] by any orchestrator [t'] goes to the client of [t]. *)
Theorem Run_uses_builder_client :
  forall W (rt : Runtime W) (t t' : Testcontainers)
         (source : ContainerImageSource) (os : list PackageOption)
         (opts : list ExecutionOption) (w : W),
    let d := Testcontainers_NewGenericContainer t source
               (map package_option os) in
    Forall (fun e => forall cl : DockerClient,
                       event_client e = Some cl -> cl = tc_client t)
      (trace (Testcontainers_Run rt t' (Some d) opts w)).
Proof.
  intros W rt t t' source os opts w d.
  destruct (NewGenericContainer_package t source os) as (_ & _ & Hc & _).
  pose proof (NewGenericContainer_starter_base t source os) as Hb.
  fold d in Hc, Hb.
  assert (E : emits (goes_to_client (tc_client t))
                (Testcontainers_Run rt t' (Some d) opts)).
  { unfold Testcontainers_Run. cbv zeta. rewrite Hc.
    apply emits_bind.
    - cbn [Create].
      unfold LoggingContainerCreator_Create,
        ContainerImageCreator_Create, Prepare, client_ContainerCreate.
      emits_walk; intros c' Hc'; simpl in Hc'; congruence.
    - intros [created err]. destruct err; [apply emits_ret|].
      apply emits_bind; [apply Start_client; exact Hb|].
      intros [started err]. destruct err; apply emits_ret. }
  exact (E w).
Qed.

(** X18: when [Run] on a definition that carries the package's creators
    and starters returns without error, the started container carries the
    very definition that was run. *)
Theorem Run_success_carries_definition :
  forall W (rt : Runtime W) (t : Testcontainers)
         (d : GenericContainerDefinition) (opts : list ExecutionOption)
         (w w' : W) (started : StartedContainer) (tr : list Event),
    package_creator (creator d) = true ->
    package_starter (starter d) = true ->
    Testcontainers_Run rt t (Some d) opts w
      = (Returned (Some started, None), w', tr) ->
    definition (StartedContainer_CreatedContainer started) = d.
Proof.
  intros W rt t d opts w w' started tr Hc Hs H.
  unfold Testcontainers_Run in H. cbv zeta in H.
  apply bind_inv in H.
  destruct H as ([created err] & w1 & tr1 & tr2 & HC & H & _).
  destruct err; [discriminate H|].
  apply bind_inv in H.
  destruct H as ([started' err] & w2 & tr3 & tr4 & HS & H & _).
  destruct err; [discriminate H|].
  unfold ret in H. injection H as <- _ _.
  rewrite (Start_package_wraps rt _ Hs _ _ _ _ _ _ HS).
  exact (proj1 (Create_package_ID rt _ Hc _ _ _ _ _ _ HC)).
Qed.

Lemma Run_success_carries_definition_witness :
  definition (StartedContainer_CreatedContainer logged_started)
  = nginx_logged.
Proof.
  refine (Run_success_carries_definition nat (scripted all_good) tc_logging
            nginx_logged [WithContext ctx1] 0 3 logged_started _
            eq_refl eq_refl _).
  vm_compute. reflexivity.
Defined.

Lemma fold_WithExposedPorts_others (pss : list (list nat_Port))
    (c : GenericContainerDefinition) :
  let d := fold_left (fun c opt => opt c) (map WithExposedPorts pss) c in
  imageSource d = imageSource c
  /\ creator d = creator c
  /\ starter d = starter c.
Proof.
  revert c; induction pss as [|ps pss IH]; intro c; simpl; [auto|].
  destruct (IH (WithExposedPorts ps c)) as (Hi & Hc & Hs).
  rewrite Hi, Hc, Hs, WithExposedPorts_fields; simpl; auto.
Qed.

(** X19: the whole of a successful run without readiness wait.  On a
    definition built from a [FromImage] source and [WithExposedPorts]
    options by an orchestrator whose logger has a handler, and run by that
    orchestrator, when the runtime accepts the create request
    and then the start request for the id it assigned, [Run] returns a
    started container with that id and the definition, and has done, in
    this order: log, resolve the image, one create request, log, one start
    request for the assigned id. *)
Theorem Run_default_chain_succeeds :
  forall W (rt : Runtime W) (t : Testcontainers) (h : slog_Handler)
         (f : FromImageSource)
         (pss : list (list nat_Port)) (opts : list ExecutionOption)
         (w w1 w2 : W) (resp : container_CreateResponse),
    let c := ctx (build_conf opts) in
    let d := Testcontainers_NewGenericContainer t (ImageSource_FromImage f)
               (map WithExposedPorts pss) in
    let created := {| ID := CreateResponse_ID resp; definition := d |} in
    Logger_handler (tc_logger t) = Some h ->
    docker_ContainerCreate rt (tc_client t) c None None None None
      EmptyString w = ((resp, None), w1) ->
    docker_ContainerStart rt (tc_client t) c (CreateResponse_ID resp)
      zero_StartOptions w1 = (None, w2) ->
    Testcontainers_Run rt t (Some d) opts w
    = (Returned
         (Some {| StartedContainer_CreatedContainer := created |}, None),
       w2,
       [CallCreate (creator d) c d;
        Log (tc_logger t) LevelInfo "Creating container";
        CallCreate (ContainerImageCreator (tc_client t)) c d;
        CallPrepare (ImageSource_FromImage f) c;
        ClientContainerCreate (tc_client t) c None None None None
          EmptyString;
        Log (tc_logger t) LevelInfo "Created container";
        CallStart (DockerContainerStarter (tc_client t)) c created;
        ClientContainerStart (tc_client t) c (CreateResponse_ID resp)
          zero_StartOptions]).
Proof.
  intros W rt t h f pss opts w w1 w2 resp c d created Hh HC HS.
  assert (Hd : imageSource d = ImageSource_FromImage f
               /\ creator d
                  = LoggingContainerCreator
                      (ContainerImageCreator (tc_client t)) (tc_logger t)
               /\ starter d = DockerContainerStarter (tc_client t)).
  { unfold d, Testcontainers_NewGenericContainer.
    match goal with
    | |- context [fold_left _ _ ?c0] =>
        destruct (fold_WithExposedPorts_others pss c0) as (Hi & Hc & Hs)
    end.
    cbv zeta in Hi, Hc, Hs. rewrite Hi, Hc, Hs. repeat split. }
  destruct Hd as (Hi & Hc & Hs).
  assert (HI : Create rt (ContainerImageCreator (tc_client t)) c d w
               = (Returned (created, None), w1,
                  [CallCreate (ContainerImageCreator (tc_client t)) c d;
                   CallPrepare (ImageSource_FromImage f) c;
                   ClientContainerCreate (tc_client t) c None None None None
                     EmptyString])).
  { cbn [Create]. rewrite bind_emit.
    unfold ContainerImageCreator_Create. rewrite Hi.
    unfold Prepare, client_ContainerCreate, extern, bind, emit, ret.
    cbn. rewrite HC. reflexivity. }
  pose proof (Logging_Create_returns rt _ (tc_logger t) h _ _ _ _ _ _ _
                Hh HI) as HL.
  cbn [app] in HL.
  assert (HSt : Start rt (DockerContainerStarter (tc_client t)) c created w1
                = (Returned
                     ({| StartedContainer_CreatedContainer := created |},
                      None), w2,
                   [CallStart (DockerContainerStarter (tc_client t)) c
                      created;
                    ClientContainerStart (tc_client t) c
                      (CreateResponse_ID resp) zero_StartOptions])).
  { cbn [Start]. rewrite bind_emit.
    unfold DockerContainerStarter_Start, client_ContainerStart, extern, bind.
    cbn [ID created]. rewrite HS. reflexivity. }
  unfold Testcontainers_Run. cbv zeta. fold c. rewrite Hc, Hs.
  rewrite (bind_Returned _ _ _ _ _ _ HL).
  rewrite (bind_Returned _ _ _ _ _ _ HSt).
  reflexivity.
Qed.

Lemma Run_default_chain_succeeds_witness :
  result (Testcontainers_Run (scripted all_good) tc_logging
            (Some (Testcontainers_NewGenericContainer tc_logging
                     (ImageSource_FromImage (FromImage "nginx" []))
                     (map WithExposedPorts [["80/tcp"]; ["443/tcp"]])))
            [WithContext ctx1] 0)
  = Returned
      (Some {| StartedContainer_CreatedContainer :=
                 {| ID := "abc";
                    definition :=
                      Testcontainers_NewGenericContainer tc_logging
                        (ImageSource_FromImage (FromImage "nginx" []))
                        (map WithExposedPorts [["80/tcp"]; ["443/tcp"]]) |} |},
       None).
Proof.
  refine (f_equal result
    (Run_default_chain_succeeds nat (scripted all_good) tc_logging
       (Handler 1) (FromImage "nginx" []) [["80/tcp"]; ["443/tcp"]]
       [WithContext ctx1] 0 1 2
       {| CreateResponse_ID := "abc"; CreateResponse_Warnings := [] |}
       eq_refl eq_refl eq_refl)).
Defined.

(** ** examples/nginx *)

(** X21: the package-level [Run], on every definition the package-level
    [NewGenericContainer] builds from the package's options, panics at the
    first log call of the logging decorator, because [tc] carries the zero
    Logger: nothing has been asked of the image source or of the runtime,
    and nothing is returned. *)
Theorem Run_default_orchestrator_panics :
  forall W (rt : Runtime W) (source : ContainerImageSource)
         (os : list PackageOption) (opts : list ExecutionOption) (w : W),
    let d := NewGenericContainer source (map package_option os) in
    Run rt (Some d) opts w
    = (Panicked, w, [CallCreate (creator d) (ctx (build_conf opts)) d]).
Proof.
  intros W rt source os opts w d.
  destruct (NewGenericContainer_package tc source os) as (_ & _ & Hc & _).
  fold (NewGenericContainer source (map package_option os)) in Hc.
  fold d in Hc.
  unfold Run, Testcontainers_Run. cbv zeta. rewrite Hc.
  rewrite (bind_Panicked _ _ _ _ _
             (Logging_Create_zero_logger rt
                (ContainerImageCreator (tc_client tc)) (tc_logger tc)
                (ctx (build_conf opts)) d w eq_refl)).
  reflexivity.
Qed.

(** X20: [startContainer] of the nginx example panics, for every context
    and against every runtime, at the first log call: no request reaches
    the runtime, and neither a container nor an error comes back. *)
Theorem startContainer_panics :
  forall W (rt : Runtime W) (c : context_Context) (w : W),
    startContainer rt c w
    = (Panicked, w, [CallCreate (creator nginx_definition) c nginx_definition]).
Proof.
  intros W rt c w. reflexivity.
Qed.
